(** * theZoo GUI: a shallow embedding of [theZoo_gui.py]

    The class [TheZooGUI] is a Tkinter view/controller over a database
    handle.  Its widget state is modelled as a record, its methods as
    computations in a small state-and-exception monad that also logs the
    calls made to the collaborators (message boxes, the database handle).

    Python strings are modelled as [string]; an [ascii] stands for the code
    point of the same number (0..255), on which [str.lower] and
    [str.isspace] are given exactly. *)

From Stdlib Require Import ZArith List Bool.
From Stdlib Require Import Strings.Ascii Strings.String.
From Stdlib Require Import Numbers.DecimalString Numbers.DecimalZ Numbers.DecimalPos.
Import ListNotations.

Open Scope string_scope.
Open Scope list_scope.

(** ** Python strings *)

Module PyStr.

Definition between (lo hi n : nat) : bool := Nat.leb lo n && Nat.leb n hi.

(** [str.isspace] on one character (code points below 256): TAB..CR,
    FS..US, SPACE, NEL and NBSP. *)
Definition isspace (c : ascii) : bool :=
  let n := nat_of_ascii c in
  between 9 13 n || between 28 32 n || Nat.eqb n 133 || Nat.eqb n 160.

(** [str.lower] on one character: A..Z and the upper-case letters of the
    Latin-1 block (all of 192..222 but the multiplication sign 215).  On
    these code points Python lowers a string character by character; the
    rules of other scripts that look at the neighbours of a letter (the
    final sigma) are outside the model. *)
Definition lower_char (c : ascii) : ascii :=
  let n := nat_of_ascii c in
  if between 65 90 n || (between 192 222 n && negb (Nat.eqb n 215))
  then ascii_of_nat (n + 32) else c.

Fixpoint lower (s : string) : string :=
  match s with
  | EmptyString => EmptyString
  | String c s' => String (lower_char c) (lower s')
  end.

Fixpoint lstrip (s : string) : string :=
  match s with
  | EmptyString => EmptyString
  | String c s' => if isspace c then lstrip s' else s
  end.

Fixpoint rstrip (s : string) : string :=
  match s with
  | EmptyString => EmptyString
  | String c s' =>
      match rstrip s' with
      | EmptyString => if isspace c then EmptyString else String c EmptyString
      | r => String c r
      end
  end.

(** [s.strip()] *)
Definition strip (s : string) : string := rstrip (lstrip s).

(** [t in s] for two strings: [t] occurs in [s] as a contiguous block. *)
Fixpoint contains (t s : string) : bool :=
  String.prefix t s
  || match s with
     | EmptyString => false
     | String _ s' => contains t s'
     end.

(** ["sep".join(parts)] *)
Definition join (sep : string) (parts : list string) : string :=
  String.concat sep parts.

Definition newline : string := String (ascii_of_nat 10) EmptyString.

(** [str(n)] for an integer: decimal digits, with a leading minus sign for
    negative numbers. *)
Definition str_int (n : Z) : string := NilEmpty.string_of_int (Z.to_int n).

Definition is_digit (c : ascii) : bool :=
  between 48 57 (nat_of_ascii c).

(** The digits of an integer literal, with the grouping underscores
    removed: an underscore is accepted only between two digits.
    [after_digit] tells whether the previous character was a digit. *)
Fixpoint literal_digits (after_digit : bool) (s : string) : option string :=
  match s with
  | EmptyString => if after_digit then Some EmptyString else None
  | String c s' =>
      if is_digit c then option_map (String c) (literal_digits true s')
      else if (Ascii.eqb c "_" && after_digit)%bool then literal_digits false s'
      else None
  end.

Definition magnitude (s : string) : option Z :=
  match literal_digits false s with
  | None => None
  | Some ds => option_map Z.of_uint (NilEmpty.uint_of_string ds)
  end.

(** The white space that [int] skips around a literal: TAB..CR and SPACE,
    and NEL and NBSP, which it reads as spaces.  FS..US are white space for
    [str.strip] but not here. *)
Definition int_space (c : ascii) : bool :=
  let n := nat_of_ascii c in
  between 9 13 n || Nat.eqb n 32 || Nat.eqb n 133 || Nat.eqb n 160.

Fixpoint int_lstrip (s : string) : string :=
  match s with
  | EmptyString => EmptyString
  | String c s' => if int_space c then int_lstrip s' else s
  end.

Fixpoint int_rstrip (s : string) : string :=
  match s with
  | EmptyString => EmptyString
  | String c s' =>
      match int_rstrip s' with
      | EmptyString => if int_space c then EmptyString else String c EmptyString
      | r => String c r
      end
  end.

(** [int(s)] in base 10, [None] standing for [ValueError]: the white space
    around the literal is dropped, then comes an optional sign, then the
    digits. *)
Definition int_of_str (s : string) : option Z :=
  match int_rstrip (int_lstrip s) with
  | String "+" ds => magnitude ds
  | String "-" ds => option_map Z.opp (magnitude ds)
  | ds => magnitude ds
  end.

Definition squote : ascii := ascii_of_nat 39.
Definition dquote : ascii := ascii_of_nat 34.
Definition backslash : ascii := ascii_of_nat 92.

(** [str.isprintable] on one character (code points below 256). *)
Definition printable (c : ascii) : bool :=
  let n := nat_of_ascii c in
  between 32 126 n || between 161 172 n || between 174 255 n.

Definition hex_digit (n : nat) : ascii :=
  ascii_of_nat (if Nat.ltb n 10 then 48 + n else 87 + n).

(** The escape [\xNN] of a character. *)
Definition hex_escape (c : ascii) : string :=
  let n := nat_of_ascii c in
  String backslash
    (String "x" (String (hex_digit (n / 16)) (String (hex_digit (n mod 16))
       EmptyString))).

Definition has_char (c : ascii) (s : string) : bool :=
  match index 0 (String c EmptyString) s with
  | Some _ => true
  | None => false
  end.

(** The quote that [repr] puts around a string: a double quote when the
    string holds a single quote and no double quote, else a single one. *)
Definition repr_quote (s : string) : ascii :=
  if has_char squote s && negb (has_char dquote s) then dquote else squote.

(** One character inside [repr(s)]. *)
Definition repr_char (quote c : ascii) : string :=
  let n := nat_of_ascii c in
  if Ascii.eqb c quote || Ascii.eqb c backslash
  then String backslash (String c EmptyString)
  else if Nat.eqb n 9 then String backslash "t"
  else if Nat.eqb n 10 then String backslash "n"
  else if Nat.eqb n 13 then String backslash "r"
  else if printable c then String c EmptyString
  else hex_escape c.

Fixpoint repr_body (quote : ascii) (s : string) : string :=
  match s with
  | EmptyString => String quote EmptyString
  | String c s' => repr_char quote c ++ repr_body quote s'
  end.

(** [repr(s)] for a string. *)
Definition repr (s : string) : string :=
  String (repr_quote s) (repr_body (repr_quote s) s).

End PyStr.

(** ** Python values *)

(** What a database cell holds: [None] (SQL NULL), an integer or a string. *)
Inductive value : Type :=
| VNone
| VInt (n : Z)
| VStr (s : string).

(** A row is a Python tuple of cells. *)
Definition Tuple : Type := list value.

(** [str(v)] *)
Definition py_str (v : value) : string :=
  match v with
  | VNone => "None"
  | VInt n => PyStr.str_int n
  | VStr s => s
  end.

(** [bool(v)]: [None], [0] and the empty string are false. *)
Definition truthy (v : value) : bool :=
  match v with
  | VNone => false
  | VInt n => negb (Z.eqb n 0)
  | VStr s => negb (String.eqb s "")
  end.

(** [v or d] *)
Definition py_or (v d : value) : value := if truthy v then v else d.

(** Exceptions, all of them instances of Python's [Exception]; each carries
    the text that [str(exc)] gives. *)
Inductive exn : Type :=
| IndexError (msg : string)
| ValueError (msg : string)
| TclError (msg : string)
| DataAccessError (msg : string).

Definition exn_str (e : exn) : string :=
  match e with
  | IndexError m | ValueError m | TclError m | DataAccessError m => m
  end.

(** ** Widget state *)

Inductive button_state : Type := NORMAL | DISABLED.

(** One item of the [ttk.Treeview]: its item id, the values of its columns
    and whether it is part of the selection. *)
Record item : Type := mkItem {
  iid : string;
  values : Tuple;
  selected : bool
}.

(** The fields of [TheZooGUI] that the methods read or write. *)
Record gui : Type := mkGui {
  malware_rows : list Tuple;
  search_var : string;
  tree : list item;
  status_var : string;
  details_button : button_state
}.

(** The external data-access object: what each query answers, an exception
    or a list of tuples. *)
Record DBHandler : Type := mkDB {
  get_partial_details : exn + list Tuple;
  get_mal_info : Z -> exn + list Tuple
}.

(** Calls to the collaborators, in the order they are made. *)
Inductive effect : Type :=
| ShowError (title message : string)
| ShowInfo (title message : string)
| QueryPartialDetails
| QueryMalInfo (mal_id : Z).

(** ** The monad of the methods

    A computation reads and writes the widget state, may raise (the state
    reached so far is kept, as in Python) and logs its collaborator calls. *)

Definition M (A : Type) : Type := gui -> (exn + A) * gui * list effect.

Definition outcome {A} (r : (exn + A) * gui * list effect) : exn + A := fst (fst r).
Definition final {A} (r : (exn + A) * gui * list effect) : gui := snd (fst r).
Definition emitted {A} (r : (exn + A) * gui * list effect) : list effect := snd r.

Definition ret {A} (a : A) : M A := fun g => (inr a, g, []).

Definition raise {A} (e : exn) : M A := fun g => (inl e, g, []).

Definition bind {A B} (m : M A) (k : A -> M B) : M B :=
  fun g =>
    match m g with
    | (inl e, g1, l1) => (inl e, g1, l1)
    | (inr a, g1, l1) =>
        match k a g1 with
        | (r, g2, l2) => (r, g2, l1 ++ l2)
        end
    end.

Notation "x <- m ;; k" := (bind m (fun x => k))
  (at level 61, m at next level, right associativity).
Notation "m ;;; k" := (bind m (fun _ => k))
  (at level 61, right associativity).

Definition get : M gui := fun g => (inr g, g, []).
Definition put (g : gui) : M unit := fun _ => (inr tt, g, []).
Definition emit (e : effect) : M unit := fun g => (inr tt, g, [e]).

(** [try: body  except Exception as exc: handler(exc)] *)
Definition try_except {A} (body : M A) (handler : exn -> M A) : M A :=
  fun g =>
    match body g with
    | (inl e, g1, l1) =>
        match handler e g1 with
        | (r, g2, l2) => (r, g2, l1 ++ l2)
        end
    | r => r
    end.

(** [try: body  finally: fin]: [fin] always runs; an exception of [fin]
    replaces the outcome of [body]. *)
Definition try_finally {A} (body : M A) (fin : M unit) : M A :=
  fun g =>
    match body g with
    | (r, g1, l1) =>
        match fin g1 with
        | (inl e, g2, l2) => (inl e, g2, l1 ++ l2)
        | (inr _, g2, l2) => (r, g2, l1 ++ l2)
        end
    end.

(** [for x in xs: body(x)] *)
Fixpoint for_each {A} (xs : list A) (body : A -> M unit) : M unit :=
  match xs with
  | [] => ret tt
  | x :: xs' => body x ;;; for_each xs' body
  end.

(** ** Tk and database primitives *)

(** [self.malware_rows = rows] *)
Definition set_malware_rows (rows : list Tuple) : M unit :=
  g <- get ;;
  put (mkGui rows (search_var g) (tree g) (status_var g) (details_button g)).

(** The items of the tree are replaced by [t]. *)
Definition set_tree (t : list item) : M unit :=
  g <- get ;;
  put (mkGui (malware_rows g) (search_var g) t (status_var g) (details_button g)).

(** [self.status_var.set(text)] *)
Definition status_var_set (text : string) : M unit :=
  g <- get ;;
  put (mkGui (malware_rows g) (search_var g) (tree g) text (details_button g)).

(** [self.details_button.configure(state=st)] *)
Definition details_button_configure (st : button_state) : M unit :=
  g <- get ;;
  put (mkGui (malware_rows g) (search_var g) (tree g) (status_var g) st).

Definition mem (x : string) (xs : list string) : bool :=
  existsb (String.eqb x) xs.

(** [self.tree.get_children()] *)
Definition tree_get_children : M (list string) :=
  g <- get ;; ret (map iid (tree g)).

(** [self.tree.selection()]: the ids of the selected items, in tree order. *)
Definition tree_selection : M (list string) :=
  g <- get ;; ret (map iid (filter selected (tree g))).

(** [self.tree.delete] on a sequence of item ids: every named item must
    exist; the items are removed (and with them their part of the
    selection). *)
Definition tree_delete (items : list string) : M unit :=
  g <- get ;;
  if forallb (fun i => mem i (map iid (tree g))) items
  then set_tree (filter (fun it => negb (mem (iid it) items)) (tree g))
  else raise (TclError "Item not found").

(** [self.tree.insert("", tk.END, iid=i, values=vals)]: a new, unselected
    item at the end; Tk refuses an id that is already in use (the empty id
    names the root item). *)
Definition tree_insert (i : string) (vals : Tuple) : M unit :=
  g <- get ;;
  if String.eqb i "" || mem i (map iid (tree g))
  then raise (TclError ("Item " ++ i ++ " already exists"))
  else set_tree (tree g ++ [mkItem i vals false]).

(** [t[0]] *)
Definition tuple_first (t : Tuple) : M value :=
  match t with
  | [] => raise (IndexError "tuple index out of range")
  | v :: _ => ret v
  end.

(** The exception of [int] on a string that is no integer literal: the
    text ends with the first 200 characters of [repr(s)]. *)
Definition int_error (s : string) : exn :=
  ValueError ("invalid literal for int() with base 10: "
              ++ substring 0 200 (PyStr.repr s)).

(** [int(s)] *)
Definition py_int (s : string) : M Z :=
  match PyStr.int_of_str s with
  | Some n => ret n
  | None => raise (int_error s)
  end.

Definition messagebox_showerror (title message : string) : M unit :=
  emit (ShowError title message).

Definition messagebox_showinfo (title message : string) : M unit :=
  emit (ShowInfo title message).

Definition of_result {A} (r : exn + A) : M A :=
  match r with
  | inl e => raise e
  | inr a => ret a
  end.

(** [self.db.get_partial_details()] *)
Definition db_get_partial_details (db : DBHandler) : M (list Tuple) :=
  emit QueryPartialDetails ;;; of_result (get_partial_details db).

(** [self.db.get_mal_info(mal_id)] *)
Definition db_get_mal_info (db : DBHandler) (mal_id : Z) : M (list Tuple) :=
  emit (QueryMalInfo mal_id) ;;; of_result (get_mal_info db mal_id).

(** ** The methods of [TheZooGUI] *)

(** The widget state that [_build_layout] sets up (after
    [self.malware_rows = []] in [__init__]). *)
Definition _build_layout : gui :=
  mkGui [] "" [] "Loaded 0 entries" DISABLED.

Definition _refresh_tree (rows : list Tuple) : M unit :=
  children <- tree_get_children ;;
  tree_delete children ;;;
  for_each rows (fun row =>
    first <- tuple_first row ;;
    tree_insert (py_str first) row) ;;;
  status_var_set
    ("Loaded " ++ PyStr.str_int (Z.of_nat (List.length rows)) ++ " entries") ;;;
  details_button_configure DISABLED.

Definition _load_data (db : DBHandler) : M unit :=
  try_finally
    (try_except
       (rows <- db_get_partial_details db ;; set_malware_rows rows)
       (fun exc =>
          messagebox_showerror "Database Error" (exn_str exc) ;;;
          set_malware_rows []))
    (g <- get ;; _refresh_tree (malware_rows g)).

(** The condition of the comprehension in [_filter_rows]:
    [any(text in str(value).lower() for value in row)]. *)
Definition row_matches (text : string) (row : Tuple) : bool :=
  existsb (fun value => PyStr.contains text (PyStr.lower (py_str value))) row.

Definition _filter_rows : M unit :=
  g <- get ;;
  let text := PyStr.lower (PyStr.strip (search_var g)) in
  if String.eqb text "" then _refresh_tree (malware_rows g)
  else
    let filtered := filter (row_matches text) (malware_rows g) in
    _refresh_tree filtered.

Definition _on_select : M unit :=
  selection <- tree_selection ;;
  let has_selection := match selection with [] => false | _ :: _ => true end in
  let new_state := if has_selection then NORMAL else DISABLED in
  details_button_configure new_state.

(** The exception of unpacking into nine names a tuple that has not nine
    fields. *)
Definition unpack_error (record : Tuple) : exn :=
  if Nat.ltb (List.length record) 9
  then ValueError ("not enough values to unpack (expected 9, got "
                   ++ PyStr.str_int (Z.of_nat (List.length record)) ++ ")")
  else ValueError "too many values to unpack (expected 9)".

(** Unpacking [result[0]] into nine names. *)
Definition unpack9 (t : Tuple) : M (list value) :=
  if Nat.eqb (List.length t) 9 then ret t else raise (unpack_error t).

(** [f"{label}: {v or 'N/A'}"] *)
Definition info_line (label : string) (v : value) : string :=
  label ++ ": " ++ py_str (py_or v (VStr "N/A")).

Definition info_lines (record : list value) : list string :=
  match record with
  | [mal_type; name; version; author; language; date; architecture;
     platform; tags] =>
      [ info_line "Name" name;
        info_line "Type" mal_type;
        info_line "Version" version;
        info_line "Author" author;
        info_line "Language" language;
        info_line "Date" date;
        info_line "Architecture" architecture;
        info_line "Platform" platform;
        info_line "Tags" tags ]
  | _ => []
  end.

Definition _show_selected_details (db : DBHandler) : M unit :=
  selection <- tree_selection ;;
  match selection with
  | [] => ret tt
  | first :: _ =>
      mal_id <- py_int first ;;
      answer <- try_except
                  (result <- db_get_mal_info db mal_id ;; ret (Some result))
                  (fun exc =>
                     messagebox_showerror "Database Error" (exn_str exc) ;;;
                     ret None) ;;
      match answer with
      | None => ret tt
      | Some [] =>
          messagebox_showinfo "Malware Info" "No additional metadata available."
      | Some (record :: _) =>
          fields <- unpack9 record ;;
          messagebox_showinfo "Malware Info"
            (PyStr.join PyStr.newline (info_lines fields))
      end
  end.

(** [TheZooGUI(root)]: the layout is built, then the rows are loaded. *)
Definition __init__ (db : DBHandler) : (exn + unit) * gui * list effect :=
  _load_data db _build_layout.

(** ** The event loop *)

(** What the user can do to the window.  [_build_layout] binds
    [_filter_rows] to the release of a key in the entry, [_on_select] to
    the selection event of the tree and [_show_selected_details] to the
    button; the entry itself writes its text to [search_var] whenever it
    is edited (a key pressed, a paste), and no method runs then. *)
Inductive event : Type :=
| Edit (text : string)
    (* the entry widget is edited: the text of [search_var] changes *)
| KeyRelease
    (* a key is released in the entry: [_filter_rows] *)
| Select (items : list string)
    (* the selection of the tree is changed to these items:
       [<<TreeviewSelect>>] runs [_on_select] *)
| ClickDetails.
    (* the button is pressed: its command runs when it is enabled *)

(** The entry writes its text to the variable it is linked to. *)
Definition set_search_var (text : string) : M unit :=
  g <- get ;;
  put (mkGui (malware_rows g) text (tree g) (status_var g) (details_button g)).

(** The items of the tree named in [items] become the selection. *)
Definition select_items (items : list string) : M unit :=
  g <- get ;;
  set_tree (map (fun it => mkItem (iid it) (values it) (mem (iid it) items))
                (tree g)).

Definition dispatch (db : DBHandler) (ev : event) : M unit :=
  match ev with
  | Edit text => set_search_var text
  | KeyRelease => _filter_rows
  | Select items => select_items items ;;; _on_select
  | ClickDetails =>
      g <- get ;;
      match details_button g with
      | NORMAL => _show_selected_details db
      | DISABLED => ret tt
      end
  end.

(** [root.mainloop()] over a sequence of events: an exception that escapes
    a handler is reported by Tk and the loop goes on from the state the
    handler left. *)
Fixpoint mainloop (db : DBHandler) (evs : list event) (g : gui) : gui :=
  match evs with
  | [] => g
  | ev :: evs' => mainloop db evs' (final (dispatch db ev g))
  end.

(** The states a run of the program goes through: the constructor
    returns, then events are handled. *)
Definition reachable (db : DBHandler) (g : gui) : Prop :=
  exists g0 evs,
    outcome (__init__ db) = inr tt /\ final (__init__ db) = g0 /\
    g = mainloop db evs g0.

(** ** Views of the state *)

(** The rows the table shows, top to bottom. *)
Definition displayed (g : gui) : list Tuple := map values (tree g).

(** The ids of the selected items. *)
Definition selection (g : gui) : list string :=
  map iid (filter selected (tree g)).

(** ** Definitions used by the statements and proofs *)

(** No character of [s] is white space. *)
Fixpoint no_space (s : string) : Prop :=
  match s with
  | EmptyString => True
  | String c s' => PyStr.isspace c = false /\ no_space s'
  end.

(** The item id that [_refresh_tree] gives a row: [str(row[0])]. *)
Definition row_iid (row : Tuple) : string := py_str (hd VNone row).

(** The item that [_refresh_tree] makes of a row. *)
Definition item_of_row (row : Tuple) : item := mkItem (row_iid row) row false.

(** No string occurs twice in [xs]. *)
Fixpoint distinct (xs : list string) : bool :=
  match xs with
  | [] => true
  | x :: xs' => negb (mem x xs') && distinct xs'
  end.

(** Rows that the table can show: every row has a first field, and the
    string forms of the first fields are non-empty and pairwise different
    (the data model: the id identifies the row). *)
Definition renderable (rows : list Tuple) : bool :=
  forallb (fun row => match row with [] => false | _ :: _ => true end) rows
  && negb (mem "" (map row_iid rows))
  && distinct (map row_iid rows).

(** The insertion loop of [_refresh_tree] as a function of the tree. *)
Fixpoint insert_rows (rows : list Tuple) (t : list item) : option exn * list item :=
  match rows with
  | [] => (None, t)
  | row :: rest =>
      match row with
      | [] => (Some (IndexError "tuple index out of range"), t)
      | first :: _ =>
          let i := py_str first in
          if String.eqb i "" || mem i (map iid t)
          then (Some (TclError ("Item " ++ i ++ " already exists")), t)
          else insert_rows rest (t ++ [mkItem i row false])
      end
  end.

(** [g] with another tree, other rows, another button state. *)
Definition with_tree (g : gui) (t : list item) : gui :=
  mkGui (malware_rows g) (search_var g) t (status_var g) (details_button g).

(** [f"Loaded {len(rows)} entries"] *)
Definition status_text (rows : list Tuple) : string :=
  "Loaded " ++ PyStr.str_int (Z.of_nat (List.length rows)) ++ " entries".

(** The state after a render that ran to its end. *)
Definition rendered (g : gui) (rows : list Tuple) : gui :=
  mkGui (malware_rows g) (search_var g) (map item_of_row rows)
        (status_text rows) DISABLED.

(** [_show_selected_details], path by path. *)
Definition show_details_paths (db : DBHandler) (g : gui)
  : (exn + unit) * gui * list effect :=
  match selection g with
  | [] => (inr tt, g, [])
  | first :: _ =>
      match PyStr.int_of_str first with
      | None => (inl (int_error first), g, [])
      | Some n =>
          match get_mal_info db n with
          | inl exc =>
              (inr tt, g, [QueryMalInfo n; ShowError "Database Error" (exn_str exc)])
          | inr [] =>
              (inr tt, g,
               [QueryMalInfo n;
                ShowInfo "Malware Info" "No additional metadata available."])
          | inr (record :: _) =>
              if Nat.eqb (List.length record) 9
              then (inr tt, g,
                    [QueryMalInfo n;
                     ShowInfo "Malware Info"
                       (PyStr.join PyStr.newline (info_lines record))])
              else (inl (unpack_error record), g, [QueryMalInfo n])
          end
      end
  end.

Definition with_rows (g : gui) (rows : list Tuple) : gui :=
  mkGui rows (search_var g) (tree g) (status_var g) (details_button g).

(** The rows of a cache that the filter text lets through: all of them
    when the text is blank, otherwise those with a field whose string
    form contains the text, both in lower case. *)
Definition view (text : string) (rows : list Tuple) : list Tuple :=
  let t := PyStr.lower (PyStr.strip text) in
  if String.eqb t "" then rows else filter (row_matches t) rows.

(** [t] occurs in the lower-cased string form of some field of [row]. *)
Definition some_field_contains (t : string) (row : Tuple) : Prop :=
  exists field a b,
    In field row /\ PyStr.lower (py_str field) = (a ++ t ++ b)%string.

Definition with_button (g : gui) (st : button_state) : gui :=
  mkGui (malware_rows g) (search_var g) (tree g) (status_var g) st.

(** Whether a key release has been handled since the text of the entry
    was last edited ([b] is the answer before the events). *)
Fixpoint filter_applied (b : bool) (evs : list event) : bool :=
  match evs with
  | [] => b
  | Edit _ :: evs' => filter_applied false evs'
  | KeyRelease :: evs' => filter_applied true evs'
  | _ :: evs' => filter_applied b evs'
  end.

(** What holds of the widget state between two events. *)
Definition consistent (g : gui) : Prop :=
  renderable (malware_rows g) = true
  /\ Forall (fun it => iid it = row_iid (values it)) (tree g)
  /\ (details_button g = NORMAL <-> selection g <> []).

(** The table shows the view of the cache under the text of the entry. *)
Definition in_sync (g : gui) : Prop :=
  displayed g = view (search_var g) (malware_rows g).

(** The message box that shows the nine labelled lines of a detail. *)
Definition detail_dialog (e : effect) : Prop :=
  exists record,
    List.length record = 9
    /\ e = ShowInfo "Malware Info" (PyStr.join PyStr.newline (info_lines record)).

(** How the dialog shows one field: "N/A" for a missing ([None]) or empty
    value (a zero counts as empty), its string form otherwise. *)
Definition shown (v : value) : string :=
  match v with
  | VNone => "N/A"
  | VStr "" => "N/A"
  | VInt 0 => "N/A"
  | _ => py_str v
  end.

(** The ids that a log asks [get_mal_info] about, in order. *)
Fixpoint mal_info_queries (log : list effect) : list Z :=
  match log with
  | [] => []
  | QueryMalInfo n :: log' => n :: mal_info_queries log'
  | _ :: log' => mal_info_queries log'
  end.

(** ** Scenarios of the specification *)

Definition row1 : Tuple :=
  [VInt 1; VStr "Trojan"; VStr "C"; VStr "x86"; VStr "Win"; VStr "A"].

Definition row2 : Tuple :=
  [VInt 2; VStr "Worm"; VStr "Python"; VStr "x64"; VStr "Linux"; VStr "B"].

Definition scenario_cache : list Tuple := [row1; row2].

Definition detail2 : Tuple :=
  [VStr "Worm"; VStr "B"; VStr "1.0"; VNone; VStr "Python"; VStr "2020";
   VStr "x64"; VStr "Linux"; VStr ""].

(** A database with the two rows of scenario A, no detail for id 1
    (scenario C), a detail without author for id 2 (scenario D) and a
    failing lookup for every other id. *)
Definition scenario_db : DBHandler :=
  mkDB (inr scenario_cache)
       (fun n => if Z.eqb n 1 then inr []
                 else if Z.eqb n 2 then inr [detail2]
                 else inl (DataAccessError "no such table")).

(** A database whose first query fails (scenario B). *)
Definition broken_db : DBHandler :=
  mkDB (inl (DataAccessError "unable to open database file"))
       (fun _ => inl (DataAccessError "unable to open database file")).

(** The window of [scenario_db] after its construction. *)
Definition scenario_gui : gui := final (__init__ scenario_db).

(** A database that has the rows of scenario A and fails every lookup. *)
Definition locked_db : DBHandler :=
  mkDB (inr scenario_cache) (fun _ => inl (DataAccessError "database is locked")).

(** ** The lifetime of the application *)

(** Every character of [s] is white space. *)
Fixpoint blank (s : string) : Prop :=
  match s with
  | EmptyString => True
  | String c s' => PyStr.isspace c = true /\ blank s'
  end.

(** [g] with another filter text. *)
Definition with_text (g : gui) (text : string) : gui :=
  mkGui (malware_rows g) text (tree g) (status_var g) (details_button g).

(** The collaborator calls of a sequence of events, handler after
    handler. *)
Fixpoint event_log (db : DBHandler) (evs : list event) (g : gui) : list effect :=
  match evs with
  | [] => []
  | ev :: evs' =>
      emitted (dispatch db ev g) ++ event_log db evs' (final (dispatch db ev g))
  end.

(** How often the button is pressed in a sequence of events. *)
Fixpoint clicks (evs : list event) : nat :=
  match evs with
  | [] => 0
  | ClickDetails :: evs' => S (clicks evs')
  | _ :: evs' => clicks evs'
  end.

(** The database as [run] meets it: what [DBHandler()] answers when
    [__init__] opens it and what [close_connection()] answers. *)
Record Database : Type := mkDatabase {
  connect : exn + DBHandler;
  close_connection : exn + unit
}.

(** What happens to the two resources of the application, in order. *)
Inductive lifecycle : Type :=
| Connected
| ConnectionClosed
| RootDestroyed.

(** [on_close]: the connection is closed, then the root window is
    destroyed; an exception of [close_connection] leaves the method before
    [destroy]. *)
Definition on_close (d : Database) : (exn + unit) * list lifecycle :=
  match close_connection d with
  | inl e => (inl e, [])
  | inr _ => (inr tt, [ConnectionClosed; RootDestroyed])
  end.

(** What reaches the root window: an event of the widgets or the request
    to close the window, for which [run] registers [on_close]. *)
Inductive window_event : Type :=
| Widget (ev : event)
| WmDeleteWindow.

(** [root.mainloop()] with the close handler: the loop ends when the root
    is destroyed (the events left are never handled); an exception of a
    handler is reported and the loop goes on.  The result tells whether the
    root was destroyed, the last widget state and what happened to the
    resources. *)
Fixpoint window_loop (d : Database) (db : DBHandler)
    (wevs : list window_event) (g : gui) : bool * gui * list lifecycle :=
  match wevs with
  | [] => (false, g, [])
  | Widget ev :: wevs' => window_loop d db wevs' (final (dispatch db ev g))
  | WmDeleteWindow :: wevs' =>
      match on_close d with
      | (inr _, l) => (true, g, l)
      | (inl _, l) =>
          match window_loop d db wevs' g with
          | (closed, g', l') => (closed, g', l ++ l')
          end
      end
  end.

(** [run()]: the application is constructed (the database is opened, the
    rows are loaded), [on_close] is registered and the loop is entered.
    An exception of the constructor leaves [run] at once.  The result is
    the exception, or whether the window was closed when the events ran
    out. *)
Definition run (d : Database) (wevs : list window_event)
  : (exn + bool) * list lifecycle :=
  match connect d with
  | inl e => (inl e, [])
  | inr db =>
      match __init__ db with
      | (inl e, _, _) => (inl e, [Connected])
      | (inr _, g0, _) =>
          match window_loop d db wevs g0 with
          | (closed, _, l) => (inr closed, Connected :: l)
          end
      end
  end.

(** The status line counts the rows of the table, and the table shows the
    view of the cache under some text. *)
Definition tidy (g : gui) : Prop :=
  status_var g = status_text (displayed g)
  /\ exists text, displayed g = view text (malware_rows g).

(** Rows with three fields, the first of them duplicated in the third
    row. *)
Definition duplicate_cache : list Tuple :=
  [ [VInt 1; VStr "Trojan"; VStr "A"];
    [VInt 2; VStr "Worm"; VStr "B"];
    [VInt 1; VStr "Virus"; VStr "C"];
    [VInt 3; VStr "Rootkit"; VStr "D"] ].

(** A database whose rows cannot all be shown. *)
Definition duplicate_db : DBHandler :=
  mkDB (inr duplicate_cache) (fun _ => inr []).

(** A database with one row whose id is NULL. *)
Definition null_id_db : DBHandler :=
  mkDB (inr [ [VNone; VStr "Worm"; VStr "C"; VStr "x86"; VStr "Win"; VStr "Z"] ])
       (fun _ => inr []).

(** A database with the rows of scenario A whose details have two fields
    only. *)
Definition short_detail_db : DBHandler :=
  mkDB (inr scenario_cache) (fun _ => inr [ [VStr "Worm"; VStr "B"] ]).

(** The application on [scenario_db] with a connection that closes. *)
Definition scenario_database : Database :=
  mkDatabase (inr scenario_db) (inr tt).

(** The application on [scenario_db] with a connection that fails to
    close. *)
Definition stuck_database : Database :=
  mkDatabase (inr scenario_db) (inl (DataAccessError "database is locked")).

(** The application on a database whose rows cannot all be shown. *)
Definition duplicate_database : Database :=
  mkDatabase (inr duplicate_db) (inr tt).

(** ** Examples *)

Example lower_ex : PyStr.lower "LiNuX 64" = "linux 64".
Proof. reflexivity. Qed.

Example strip_ex : PyStr.strip "  a b  " = "a b".
Proof. reflexivity. Qed.

Example contains_ex : PyStr.contains "nu" "linux" = true /\ PyStr.contains "nx" "linux" = false.
Proof. split; reflexivity. Qed.

Example int_of_str_ex :
  PyStr.int_of_str " -1_000 " = Some (-1000)%Z /\ PyStr.int_of_str "1__0" = None
  /\ PyStr.int_of_str "None" = None /\ PyStr.int_of_str "+07" = Some 7%Z
  /\ PyStr.int_of_str "" = None /\ PyStr.int_of_str "-" = None.
Proof. repeat split; reflexivity. Qed.

Example str_int_ex : PyStr.str_int (-42) = "-42" /\ PyStr.str_int 0 = "0".
Proof. split; reflexivity. Qed.

Example int_of_str_separators :
  PyStr.int_of_str (String (ascii_of_nat 28) "7") = None
  /\ PyStr.int_of_str (String (ascii_of_nat 160) "7") = Some 7%Z
  /\ PyStr.strip (String (ascii_of_nat 28) "7") = "7".
Proof. repeat split; reflexivity. Qed.

Example int_error_quotes :
  exn_str (int_error "it's")
  = ("invalid literal for int() with base 10: "
     ++ String PyStr.dquote ("it's" ++ String PyStr.dquote ""))%string
  /\ exn_str (int_error "None") = "invalid literal for int() with base 10: 'None'"
  /\ exn_str (unpack_error [VNone; VNone])
     = "not enough values to unpack (expected 9, got 2)".
Proof. repeat split; reflexivity. Qed.

(** ** Facts about the string primitives *)

Section StringFacts.

Lemma prefix_iff (t s : string) :
  String.prefix t s = true <-> exists b, s = (t ++ b)%string.
Proof.
  revert s; induction t as [|c t IH]; intros s.
  - split; [intros _; now exists s | now destruct s].
  - destruct s as [|d s]; simpl.
    + split; [discriminate | intros [b Hb]; discriminate].
    + destruct (ascii_dec c d) as [->|Hne].
      * rewrite IH. split; intros [b Hb]; exists b; [now subst | now inversion Hb].
      * split; [discriminate | intros [b Hb]; simpl in Hb; congruence].
Qed.

Lemma contains_nil (t : string) :
  PyStr.contains t "" = String.prefix t "".
Proof. unfold PyStr.contains. apply orb_false_r. Qed.

Lemma contains_cons (t : string) (d : ascii) (s : string) :
  PyStr.contains t (String d s)
  = String.prefix t (String d s) || PyStr.contains t s.
Proof. reflexivity. Qed.

(** [contains] decides the substring relation. *)
Lemma contains_iff (t s : string) :
  PyStr.contains t s = true <-> exists a b, s = (a ++ t ++ b)%string.
Proof.
  induction s as [|d s IH].
  - rewrite contains_nil, prefix_iff. split.
    + intros [b Hb]. now exists "", b.
    + intros [a [b Hab]]. destruct a; [now exists b | discriminate].
  - rewrite contains_cons, orb_true_iff, prefix_iff, IH. split.
    + intros [[b Hb] | [a [b Hab]]].
      * now exists "", b.
      * exists (String d a), b. simpl. now rewrite Hab.
    + intros [a [b Hab]]. destruct a as [|c a]; simpl in Hab.
      * left. now exists b.
      * right. inversion Hab. now exists a, b.
Qed.

Lemma contains_empty (s : string) : PyStr.contains "" s = true.
Proof. destruct s; reflexivity. Qed.

Lemma int_space_isspace (c : ascii) :
  PyStr.isspace c = false -> PyStr.int_space c = false.
Proof. destruct c as [[] [] [] [] [] [] [] []]; intros H; now try discriminate H. Qed.

Lemma int_rstrip_no_space (s : string) : no_space s -> PyStr.int_rstrip s = s.
Proof.
  induction s as [|c s IH]; simpl; [reflexivity|].
  intros [Hc Hs]. rewrite (IH Hs), (int_space_isspace c Hc). now destruct s.
Qed.

(** [int] skips nothing of a string that holds no white space. *)
Lemma int_strip_no_space (s : string) :
  no_space s -> PyStr.int_rstrip (PyStr.int_lstrip s) = s.
Proof.
  intros H. destruct s as [|c s]; [reflexivity|].
  simpl PyStr.int_lstrip. destruct H as [Hc Hs].
  rewrite (int_space_isspace c Hc).
  apply int_rstrip_no_space. now split.
Qed.

Lemma no_space_digits (u : Decimal.uint) :
  no_space (NilEmpty.string_of_uint u).
Proof. induction u; simpl; auto. Qed.

Lemma literal_digits_after (u : Decimal.uint) :
  PyStr.literal_digits true (NilEmpty.string_of_uint u)
  = Some (NilEmpty.string_of_uint u).
Proof. induction u; simpl; [reflexivity | rewrite IHu; reflexivity ..]. Qed.

Lemma magnitude_digits (u : Decimal.uint) :
  u <> Decimal.Nil ->
  PyStr.magnitude (NilEmpty.string_of_uint u) = Some (Z.of_uint u).
Proof.
  intros Hu. unfold PyStr.magnitude.
  assert (H : PyStr.literal_digits false (NilEmpty.string_of_uint u)
              = Some (NilEmpty.string_of_uint u)).
  { destruct u; [contradiction | simpl; rewrite literal_digits_after; reflexivity ..]. }
  rewrite H, NilEmpty.usu. reflexivity.
Qed.

Lemma int_of_str_digits (u : Decimal.uint) :
  u <> Decimal.Nil ->
  PyStr.int_of_str (NilEmpty.string_of_uint u) = Some (Z.of_uint u).
Proof.
  intros Hu. unfold PyStr.int_of_str.
  rewrite (int_strip_no_space _ (no_space_digits u)).
  rewrite <- (magnitude_digits u Hu).
  destruct u; [contradiction | reflexivity ..].
Qed.

(** [int(str(n)) == n] for every integer. *)
Lemma int_of_str_str_int (n : Z) : PyStr.int_of_str (PyStr.str_int n) = Some n.
Proof.
  unfold PyStr.str_int. destruct n as [|p|p]; [reflexivity | |].
  - simpl. rewrite int_of_str_digits by apply Unsigned.to_uint_nonnil.
    f_equal. exact (DecimalZ.of_to (Zpos p)).
  - simpl Z.to_int. simpl NilEmpty.string_of_int.
    unfold PyStr.int_of_str.
    rewrite int_strip_no_space
      by (split; [reflexivity | apply no_space_digits]).
    rewrite magnitude_digits by apply Unsigned.to_uint_nonnil.
    simpl. f_equal. exact (DecimalZ.of_to (Zneg p)).
Qed.

Lemma str_int_nonempty (n : Z) : PyStr.str_int n <> "".
Proof.
  intros H. pose proof (int_of_str_str_int n) as R. rewrite H in R. discriminate.
Qed.

Lemma str_int_inj (n m : Z) : PyStr.str_int n = PyStr.str_int m -> n = m.
Proof.
  intros H. pose proof (int_of_str_str_int n) as R.
  rewrite H, int_of_str_str_int in R. congruence.
Qed.

End StringFacts.

(** ** Rendering *)

Section Rendering.

Lemma mem_In (x : string) (xs : list string) : mem x xs = true <-> In x xs.
Proof.
  unfold mem. rewrite existsb_exists. split.
  - intros [y [Hy He]]. apply String.eqb_eq in He. now subst.
  - intros H. exists x. split; [assumption | apply String.eqb_refl].
Qed.

Lemma mem_app (x : string) (xs ys : list string) :
  mem x (xs ++ ys) = mem x xs || mem x ys.
Proof. unfold mem. apply existsb_app. Qed.

Lemma filter_none {A} (p : A -> bool) (l : list A) :
  (forall x, In x l -> p x = false) -> filter p l = [].
Proof.
  induction l as [|a l IH]; intros H; [reflexivity|].
  simpl. rewrite (H a (or_introl eq_refl)).
  apply IH. intros x Hx. apply H. now right.
Qed.

Lemma delete_all_children (t : list item) :
  forallb (fun i => mem i (map iid t)) (map iid t) = true
  /\ filter (fun it => negb (mem (iid it) (map iid t))) t = [].
Proof.
  split.
  - apply forallb_forall. intros i Hi. now apply mem_In.
  - apply filter_none.
    intros it Hit. apply negb_false_iff, mem_In, in_map, Hit.
Qed.

Lemma for_each_insert (rows : list Tuple) (g : gui) :
  for_each rows (fun row =>
      first <- tuple_first row ;; tree_insert (py_str first) row) g
  = (match fst (insert_rows rows (tree g)) with
     | Some e => inl e
     | None => inr tt
     end,
     with_tree g (snd (insert_rows rows (tree g))), []).
Proof.
  revert g. induction rows as [|row rest IH]; intros g.
  - destruct g; reflexivity.
  - destruct row as [|first flds].
    + destruct g; reflexivity.
    + simpl insert_rows. simpl for_each.
      unfold bind at 1. unfold bind at 1. simpl tuple_first. unfold ret at 1.
      unfold tree_insert, bind at 1, get at 1.
      destruct (String.eqb (py_str first) "" || mem (py_str first) (map iid (tree g)))
        eqn:Hdup.
      * destruct g; reflexivity.
      * unfold set_tree, bind at 1, get at 1, put at 1. simpl app.
        rewrite IH. simpl tree. destruct g; reflexivity.
Qed.

(** What [_refresh_tree] computes: the old items are dropped, the rows are
    inserted one by one; the status line and the button are written only
    when every row went in. *)
Lemma refresh_tree_run (rows : list Tuple) (g : gui) :
  _refresh_tree rows g
  = match insert_rows rows [] with
    | (Some e, t) => (inl e, with_tree g t, [])
    | (None, t) =>
        (inr tt,
         mkGui (malware_rows g) (search_var g) t (status_text rows) DISABLED,
         [])
    end.
Proof.
  unfold _refresh_tree.
  unfold bind at 1, tree_get_children, bind at 1, get at 1, ret at 1.
  unfold bind at 1, tree_delete, bind at 1, get at 1.
  destruct (delete_all_children (tree g)) as [Hall Hnone].
  rewrite Hall. unfold set_tree, bind at 1, get at 1, put at 1.
  rewrite Hnone. unfold bind at 1.
  rewrite for_each_insert. simpl tree.
  destruct (insert_rows rows []) as [[e|] t]; simpl.
  - destruct g; reflexivity.
  - destruct g; reflexivity.
Qed.

Lemma distinct_NoDup (xs : list string) : distinct xs = true <-> NoDup xs.
Proof.
  induction xs as [|x xs IH]; simpl.
  - split; [constructor | reflexivity].
  - rewrite andb_true_iff, negb_true_iff, IH. split.
    + intros [Hx Hxs]. constructor; [|assumption].
      intros Hin. apply mem_In in Hin. congruence.
    + intros H. inversion H as [|? ? Hx Hxs]; subst. split; [|assumption].
      destruct (mem x xs) eqn:E; [|reflexivity].
      apply mem_In in E. contradiction.
Qed.

Lemma renderable_iff (rows : list Tuple) :
  renderable rows = true <->
  Forall (fun row => row <> []) rows
  /\ ~ In "" (map row_iid rows)
  /\ NoDup (map row_iid rows).
Proof.
  unfold renderable.
  rewrite !andb_true_iff, negb_true_iff, distinct_NoDup, forallb_forall, Forall_forall.
  split.
  - intros [[Hne Hnil] Hnd]. repeat split; [|  |assumption].
    + intros row Hrow ->. specialize (Hne _ Hrow). discriminate.
    + intros Hin. apply mem_In in Hin. congruence.
  - intros [Hne [Hnil Hnd]]. repeat split; [| |assumption].
    + intros row Hrow. specialize (Hne _ Hrow). now destruct row.
    + destruct (mem "" (map row_iid rows)) eqn:E; [|reflexivity].
      apply mem_In in E. contradiction.
Qed.

Lemma insert_rows_ok (rows : list Tuple) :
  forall t,
    Forall (fun row => row <> []) rows ->
    ~ In "" (map row_iid rows) ->
    NoDup (map row_iid rows) ->
    (forall i, In i (map row_iid rows) -> ~ In i (map iid t)) ->
    insert_rows rows t = (None, t ++ map item_of_row rows).
Proof.
  induction rows as [|row rest IH]; intros t Hne Hnil Hnd Hfresh.
  - simpl. now rewrite app_nil_r.
  - inversion Hne as [|? ? Hrow Hrest]; subst.
    inversion Hnd as [|? ? Hnotin Hnd']; subst.
    destruct row as [|first flds]; [contradiction|].
    simpl insert_rows.
    assert (E1 : String.eqb (py_str first) "" = false).
    { apply String.eqb_neq. intros E. apply Hnil. left. now rewrite <- E. }
    assert (E2 : mem (py_str first) (map iid t) = false).
    { destruct (mem (py_str first) (map iid t)) eqn:E; [|reflexivity].
      apply mem_In in E. exfalso. apply (Hfresh (py_str first)); [now left | assumption]. }
    rewrite E1, E2. simpl orb. cbv iota.
    rewrite IH; try assumption.
    + rewrite <- app_assoc. reflexivity.
    + intros Hin. apply Hnil. now right.
    + intros i Hi. rewrite map_app, in_app_iff. simpl.
      intros [Hin | [<- | []]].
      * apply (Hfresh i); [now right | assumption].
      * apply Hnotin. exact Hi.
Qed.

(** A render of renderable rows runs to its end, whatever the table held
    before. *)
Lemma refresh_tree_ok (rows : list Tuple) (g : gui) :
  renderable rows = true ->
  _refresh_tree rows g = (inr tt, rendered g rows, []).
Proof.
  intros H. apply renderable_iff in H. destruct H as [Hne [Hnil Hnd]].
  rewrite refresh_tree_run, insert_rows_ok; try assumption.
  - reflexivity.
  - intros i _ [].
Qed.

Lemma displayed_rendered (g : gui) (rows : list Tuple) :
  displayed (rendered g rows) = rows.
Proof.
  unfold displayed, rendered. simpl. rewrite map_map. simpl. apply map_id.
Qed.

Lemma row_iid_filter (p : Tuple -> bool) (rows : list Tuple) (i : string) :
  In i (map row_iid (filter p rows)) -> In i (map row_iid rows).
Proof.
  rewrite !in_map_iff. intros [row [Hi Hrow]].
  apply filter_In in Hrow. exists row. tauto.
Qed.

Lemma distinct_ids_filter (p : Tuple -> bool) (rows : list Tuple) :
  NoDup (map row_iid rows) -> NoDup (map row_iid (filter p rows)).
Proof.
  induction rows as [|row rows IH]; simpl; intros Hnd; [exact Hnd|].
  apply NoDup_cons_iff in Hnd. destruct Hnd as [Hfresh Hnd].
  destruct (p row); simpl; [|now apply IH].
  apply NoDup_cons_iff. split; [|now apply IH].
  intros Hin. apply Hfresh. now apply row_iid_filter in Hin.
Qed.

(** A selection of renderable rows is renderable. *)
Lemma renderable_filter (p : Tuple -> bool) (rows : list Tuple) :
  renderable rows = true -> renderable (filter p rows) = true.
Proof.
  rewrite !renderable_iff. intros [Hne [Hnil Hnd]]. repeat split.
  - apply Forall_forall. intros row Hrow. apply filter_In in Hrow.
    rewrite Forall_forall in Hne. now apply Hne.
  - intros Hin. apply Hnil. now apply row_iid_filter in Hin.
  - now apply distinct_ids_filter.
Qed.

End Rendering.

(** ** The detail lookup *)

Section Details.

Variable db : DBHandler.

Lemma show_details_run (g : gui) :
  _show_selected_details db g = show_details_paths db g.
Proof.
  unfold _show_selected_details, show_details_paths, selection.
  unfold bind at 1, tree_selection, bind at 1, get at 1, ret at 1.
  destruct (map iid (filter selected (tree g))) as [|first rest]; [reflexivity|].
  unfold bind at 1, py_int.
  destruct (PyStr.int_of_str first) as [n|]; [|reflexivity].
  unfold ret at 1, bind at 1, try_except, bind at 1, db_get_mal_info,
    bind at 1, emit at 1, of_result.
  destruct (get_mal_info db n) as [exc | [|record more]]; try reflexivity.
  unfold ret at 1. unfold ret at 1. simpl app.
  unfold bind at 1, unpack9, unpack_error.
  destruct (Nat.eqb (List.length record) 9); [reflexivity|].
  destruct (Nat.ltb (List.length record) 9); reflexivity.
Qed.

(** No path of [_show_selected_details] writes to the widget state. *)
Lemma show_details_final (g : gui) : final (_show_selected_details db g) = g.
Proof.
  rewrite show_details_run. unfold show_details_paths.
  destruct (selection g) as [|first rest]; [reflexivity|].
  destruct (PyStr.int_of_str first) as [n|]; [|reflexivity].
  destruct (get_mal_info db n) as [exc | [|record more]]; try reflexivity.
  destruct (Nat.eqb (List.length record) 9); reflexivity.
Qed.

End Details.

(** ** Loading *)

Section Loading.

Lemma insert_rows_success (rows : list Tuple) :
  forall t t',
    insert_rows rows t = (None, t') ->
    Forall (fun row => row <> []) rows
    /\ ~ In "" (map row_iid rows)
    /\ NoDup (map row_iid rows)
    /\ (forall i, In i (map row_iid rows) -> ~ In i (map iid t)).
Proof.
  induction rows as [|row rest IH]; intros t t' H.
  - repeat split; [constructor | intros [] | constructor | intros i []].
  - destruct row as [|first flds]; [discriminate|].
    simpl in H.
    destruct (String.eqb (py_str first) "") eqn:E1; [discriminate|].
    destruct (mem (py_str first) (map iid t)) eqn:E2; [discriminate|].
    simpl in H. apply IH in H. destruct H as [Hne [Hnil [Hnd Hfresh]]].
    apply String.eqb_neq in E1.
    assert (Hnew : ~ In (py_str first) (map row_iid rest)).
    { intros Hin. apply (Hfresh _ Hin).
      rewrite map_app, in_app_iff. right. now left. }
    repeat split.
    + constructor; [discriminate | assumption].
    + simpl. intros [E | Hin]; [now apply E1 | now apply Hnil].
    + simpl. constructor; assumption.
    + simpl. intros i [<- | Hi] Hin.
      * apply mem_In in Hin. unfold row_iid in Hin. simpl in Hin. congruence.
      * apply (Hfresh i Hi). rewrite map_app, in_app_iff. now left.
Qed.

(** Only renderable rows let [_refresh_tree] run to its end. *)
Lemma refresh_tree_success (rows : list Tuple) (g : gui) :
  outcome (_refresh_tree rows g) = inr tt -> renderable rows = true.
Proof.
  rewrite refresh_tree_run.
  destruct (insert_rows rows []) as [[e|] t] eqn:E; [discriminate|].
  intros _. apply insert_rows_success in E. apply renderable_iff. tauto.
Qed.

Lemma load_data_raise (db : DBHandler) (g : gui) (exc : exn) :
  get_partial_details db = inl exc ->
  _load_data db g
  = (inr tt, rendered (with_rows g []) [],
     [QueryPartialDetails; ShowError "Database Error" (exn_str exc)]).
Proof.
  intros H. unfold _load_data, try_finally, try_except.
  unfold bind at 1, db_get_partial_details, bind at 1, emit at 1.
  rewrite H. cbn -[_refresh_tree].
  rewrite refresh_tree_ok by reflexivity. reflexivity.
Qed.

Lemma load_data_rows (db : DBHandler) (g : gui) (rows : list Tuple) :
  get_partial_details db = inr rows ->
  _load_data db g
  = (outcome (_refresh_tree rows (with_rows g rows)),
     final (_refresh_tree rows (with_rows g rows)),
     [QueryPartialDetails]).
Proof.
  intros H. unfold _load_data, try_finally, try_except.
  unfold bind at 1, db_get_partial_details, bind at 1, emit at 1.
  rewrite H. cbn -[_refresh_tree]. fold (with_rows g rows).
  destruct (_refresh_tree rows (with_rows g rows)) as [[[e|[]] g2] l] eqn:E;
    pose proof (refresh_tree_run rows (with_rows g rows)) as R;
    rewrite E in R;
    destruct (insert_rows rows []) as [[e'|] t]; inversion R; reflexivity.
Qed.

End Loading.

(** ** Filtering, selecting and the event loop *)

Section EventLoop.

Variable db : DBHandler.

Lemma row_matches_iff (t : string) (row : Tuple) :
  row_matches t row = true <-> some_field_contains t row.
Proof.
  unfold row_matches, some_field_contains. rewrite existsb_exists. split.
  - intros [field [Hin Hc]]. apply contains_iff in Hc.
    destruct Hc as [a [b Hab]]. now exists field, a, b.
  - intros [field [a [b [Hin Hab]]]]. exists field. split; [assumption|].
    apply contains_iff. now exists a, b.
Qed.

Lemma view_renderable (text : string) (rows : list Tuple) :
  renderable rows = true -> renderable (view text rows) = true.
Proof.
  intros H. unfold view.
  destruct (String.eqb _ ""); [assumption | now apply renderable_filter].
Qed.

Lemma filter_rows_run (g : gui) :
  renderable (malware_rows g) = true ->
  _filter_rows g
  = (inr tt, rendered g (view (search_var g) (malware_rows g)), []).
Proof.
  intros H. unfold _filter_rows, bind at 1, get at 1.
  pose proof (view_renderable (search_var g) _ H) as Hv. unfold view in *.
  destruct (String.eqb (PyStr.lower (PyStr.strip (search_var g))) "");
    cbv zeta in *; rewrite refresh_tree_ok by assumption; reflexivity.
Qed.

Lemma on_select_run (g : gui) :
  _on_select g
  = (inr tt,
     with_button g (match selection g with [] => DISABLED | _ :: _ => NORMAL end),
     []).
Proof.
  unfold _on_select, selection, bind at 1, tree_selection, bind at 1,
    get at 1, ret at 1.
  destruct (map iid (filter selected (tree g))); destruct g; reflexivity.
Qed.

Lemma selection_rendered (g : gui) (rows : list Tuple) :
  selection (rendered g rows) = [].
Proof.
  unfold selection, rendered. simpl.
  rewrite filter_none; [reflexivity|].
  intros it Hit. apply in_map_iff in Hit. now destruct Hit as [row [<- _]].
Qed.

Lemma consistent_rendered (g : gui) (rows : list Tuple) :
  renderable (malware_rows g) = true -> consistent (rendered g rows).
Proof.
  intros H. split; [exact H | split].
  - simpl. apply Forall_forall. intros it Hit. apply in_map_iff in Hit.
    now destruct Hit as [row [<- _]].
  - rewrite selection_rendered. simpl. split; [discriminate | congruence].
Qed.

Lemma dispatch_consistent (ev : event) (g : gui) :
  consistent g -> consistent (final (dispatch db ev g)).
Proof.
  intros Hc. pose proof Hc as [Hr [Hi Hb]].
  destruct ev as [text | | items |]; simpl dispatch.
  - exact Hc.
  - rewrite filter_rows_run by assumption. now apply consistent_rendered.
  - unfold bind at 1, select_items, bind at 1, get at 1, set_tree, bind at 1,
      get at 1, put at 1. simpl app.
    rewrite on_select_run. unfold final; simpl fst; simpl snd.
    split; [exact Hr | split].
    + simpl. apply Forall_forall. intros it Hit. apply in_map_iff in Hit.
      destruct Hit as [it0 [<- Hit0]]. simpl.
      rewrite Forall_forall in Hi. now apply Hi.
    + unfold with_button, selection. simpl.
      match goal with |- context [map iid ?x] => destruct (map iid x) end;
        split; congruence.
  - unfold bind at 1, get at 1.
    destruct (details_button g) eqn:E.
    + pose proof (show_details_final db g) as F.
      destruct (_show_selected_details db g) as [[r g'] l].
      unfold final in F |- *; simpl in F |- *. now subst g'.
    + exact Hc.
Qed.

Lemma mainloop_consistent (evs : list event) (g : gui) :
  consistent g -> consistent (mainloop db evs g).
Proof.
  revert g. induction evs as [|ev evs IH]; intros g H; [exact H|].
  simpl. apply IH. now apply dispatch_consistent.
Qed.

Lemma init_consistent :
  outcome (__init__ db) = inr tt -> consistent (final (__init__ db)).
Proof.
  unfold __init__. destruct (get_partial_details db) as [exc | rows] eqn:E.
  - rewrite (load_data_raise db _ exc E). intros _.
    now apply consistent_rendered.
  - rewrite (load_data_rows db _ rows E). unfold outcome at 1, final at 1. simpl.
    intros H. pose proof (refresh_tree_success _ _ H) as Hr.
    rewrite refresh_tree_ok by assumption. unfold final; simpl.
    now apply consistent_rendered.
Qed.

Lemma reachable_consistent (g : gui) : reachable db g -> consistent g.
Proof.
  intros [g0 [evs [Hok [<- ->]]]].
  apply mainloop_consistent, init_consistent, Hok.
Qed.

Lemma dispatch_in_sync (ev : event) (b : bool) (g : gui) :
  consistent g ->
  (b = true -> in_sync g) ->
  filter_applied b [ev] = true -> in_sync (final (dispatch db ev g)).
Proof.
  intros [Hr _] Hs. destruct ev as [text | | items |]; simpl; intros Hb.
  - discriminate.
  - rewrite filter_rows_run by assumption. unfold final, in_sync; simpl fst; simpl snd.
    rewrite displayed_rendered. reflexivity.
  - specialize (Hs Hb). unfold in_sync in *.
    unfold bind at 1, select_items, bind at 1, get at 1, set_tree, bind at 1,
      get at 1, put at 1. simpl app.
    rewrite on_select_run. unfold final, displayed in *; simpl.
    rewrite map_map. simpl. exact Hs.
  - specialize (Hs Hb).
    unfold bind at 1, get at 1.
    destruct (details_button g).
    + pose proof (show_details_final db g) as F.
      destruct (_show_selected_details db g) as [[r g'] l].
      unfold final in *; simpl in *. now subst g'.
    + exact Hs.
Qed.

Lemma mainloop_in_sync (evs : list event) :
  forall (b : bool) (g : gui),
    consistent g ->
    (b = true -> in_sync g) ->
    filter_applied b evs = true -> in_sync (mainloop db evs g).
Proof.
  induction evs as [|ev evs IH]; intros b g Hc Hs Hb.
  - simpl in *. now apply Hs.
  - simpl mainloop.
    apply (IH (filter_applied b [ev])).
    + now apply dispatch_consistent.
    + now apply dispatch_in_sync with (b := b).
    + destruct ev; exact Hb.
Qed.

End EventLoop.

(** ** Properties of the methods *)

Lemma row_matches_empty (row : Tuple) : row <> [] -> row_matches "" row = true.
Proof.
  destruct row as [|v row]; [contradiction|]. intros _.
  unfold row_matches. simpl. now rewrite contains_empty.
Qed.

Lemma filter_all {A} (p : A -> bool) (l : list A) :
  (forall x, In x l -> p x = true) -> filter p l = l.
Proof.
  induction l as [|a l IH]; intros H; [reflexivity|].
  simpl. rewrite (H a (or_introl eq_refl)). f_equal.
  apply IH. intros x Hx. apply H. now right.
Qed.

(** On renderable rows the view is the comprehension of [_filter_rows],
    also when the text is blank. *)
Lemma view_filter (text : string) (rows : list Tuple) :
  renderable rows = true ->
  view text rows = filter (row_matches (PyStr.lower (PyStr.strip text))) rows.
Proof.
  intros H. unfold view.
  destruct (String.eqb_spec (PyStr.lower (PyStr.strip text)) "") as [->|_];
    [|reflexivity].
  symmetry. apply filter_all. intros row Hrow. apply row_matches_empty.
  apply renderable_iff in H. destruct H as [Hne _].
  rewrite Forall_forall in Hne. now apply Hne.
Qed.

(** C1: for a non-empty filter text and a row cache whose rows can be
    shown (every row has an id, ids are distinct), [_filter_rows] displays
    exactly the rows of the cache that have a field whose lower-cased
    string form contains the trimmed, lower-cased text, in the order of the
    cache. *)
Theorem filter_shows_matching_rows (g : gui) :
  search_var g <> "" ->
  renderable (malware_rows g) = true ->
  outcome (_filter_rows g) = inr tt
  /\ displayed (final (_filter_rows g))
     = filter (row_matches (PyStr.lower (PyStr.strip (search_var g))))
              (malware_rows g)
  /\ (forall row,
        In row (displayed (final (_filter_rows g))) <->
        In row (malware_rows g)
        /\ some_field_contains (PyStr.lower (PyStr.strip (search_var g))) row).
Proof.
  intros _ Hr. rewrite filter_rows_run by assumption.
  unfold outcome, final. simpl fst. simpl snd.
  rewrite displayed_rendered, view_filter by assumption.
  split; [reflexivity | split; [reflexivity|]].
  intros row. rewrite filter_In, row_matches_iff. reflexivity.
Qed.

Lemma filter_shows_matching_rows_witness :
  let g := mkGui scenario_cache " LINUX " [] "Loaded 0 entries" DISABLED in
  search_var g <> "" /\ renderable (malware_rows g) = true
  /\ displayed (final (_filter_rows g)) = [row2].
Proof.
  intros g.
  assert (H1 : search_var g <> "") by discriminate.
  assert (H2 : renderable (malware_rows g) = true) by reflexivity.
  split; [exact H1 | split; [exact H2|]].
  rewrite (proj1 (proj2 (filter_shows_matching_rows g H1 H2))).
  reflexivity.
Defined.

(** C6: with a filter text that is empty, or blank so that trimming
    empties it, [_filter_rows] displays the whole row cache, unchanged and
    in order. *)
Theorem filter_blank_text_shows_cache (g : gui) :
  PyStr.strip (search_var g) = "" ->
  renderable (malware_rows g) = true ->
  outcome (_filter_rows g) = inr tt
  /\ displayed (final (_filter_rows g)) = malware_rows g
  /\ malware_rows (final (_filter_rows g)) = malware_rows g.
Proof.
  intros Hblank Hr. rewrite filter_rows_run by assumption.
  unfold outcome, final. simpl fst. simpl snd.
  rewrite displayed_rendered. unfold view. rewrite Hblank.
  repeat split; reflexivity.
Qed.

Lemma filter_blank_text_shows_cache_witness :
  let g := mkGui scenario_cache "   " [] "Loaded 0 entries" DISABLED in
  PyStr.strip (search_var g) = "" /\ renderable (malware_rows g) = true
  /\ displayed (final (_filter_rows g)) = scenario_cache.
Proof.
  intros g.
  assert (H1 : PyStr.strip (search_var g) = "") by reflexivity.
  assert (H2 : renderable (malware_rows g) = true) by reflexivity.
  split; [exact H1 | split; [exact H2|]].
  exact (proj1 (proj2 (filter_blank_text_shows_cache g H1 H2))).
Defined.

(** C7: rendering is idempotent.  Calling [_refresh_tree] a second time
    with the same rows leaves the whole widget state (table, status line,
    button) as the first call left it, with the same outcome; and when the
    rows can be shown that state has the rows in the table, their count in
    the status line and the button disabled. *)
Theorem refresh_tree_idempotent (rows : list Tuple) (g : gui) :
  final (_refresh_tree rows (final (_refresh_tree rows g)))
  = final (_refresh_tree rows g)
  /\ outcome (_refresh_tree rows (final (_refresh_tree rows g)))
     = outcome (_refresh_tree rows g)
  /\ (renderable rows = true ->
      displayed (final (_refresh_tree rows g)) = rows
      /\ status_var (final (_refresh_tree rows g)) = status_text rows
      /\ details_button (final (_refresh_tree rows g)) = DISABLED).
Proof.
  split; [|split].
  - rewrite (refresh_tree_run rows g).
    destruct (insert_rows rows []) as [[e|] t] eqn:E;
      unfold final; simpl fst; simpl snd; rewrite refresh_tree_run, E; reflexivity.
  - rewrite (refresh_tree_run rows g).
    destruct (insert_rows rows []) as [[e|] t] eqn:E;
      unfold final, outcome; simpl fst; simpl snd;
      rewrite refresh_tree_run, E; reflexivity.
  - intros H. rewrite refresh_tree_ok by assumption.
    unfold final. simpl fst. simpl snd. rewrite displayed_rendered.
    repeat split; reflexivity.
Qed.

Lemma refresh_tree_idempotent_witness :
  renderable scenario_cache = true
  /\ displayed (final (_refresh_tree scenario_cache _build_layout)) = scenario_cache
  /\ status_var (final (_refresh_tree scenario_cache _build_layout))
     = "Loaded 2 entries"
  /\ details_button (final (_refresh_tree scenario_cache _build_layout)) = DISABLED.
Proof.
  split; [reflexivity|].
  exact (proj2 (proj2 (refresh_tree_idempotent scenario_cache _build_layout))
               eq_refl).
Defined.

(** C3: when [get_partial_details] raises, [_load_data] returns normally
    (nothing is propagated), has shown one error box with the text of the
    exception, has emptied the row cache, and has rendered it: the table is
    empty, the status line reads "Loaded 0 entries" and the button is
    disabled. *)
Theorem load_data_failure (db : DBHandler) (g : gui) (exc : exn) :
  get_partial_details db = inl exc ->
  outcome (_load_data db g) = inr tt
  /\ emitted (_load_data db g)
     = [QueryPartialDetails; ShowError "Database Error" (exn_str exc)]
  /\ malware_rows (final (_load_data db g)) = []
  /\ final (_load_data db g) = final (_refresh_tree [] (with_rows g []))
  /\ tree (final (_load_data db g)) = []
  /\ status_var (final (_load_data db g)) = "Loaded 0 entries"
  /\ details_button (final (_load_data db g)) = DISABLED.
Proof.
  intros H. rewrite (load_data_raise db g exc H).
  rewrite refresh_tree_ok by reflexivity.
  repeat split; reflexivity.
Qed.

Lemma load_data_failure_witness :
  get_partial_details broken_db
  = inl (DataAccessError "unable to open database file")
  /\ outcome (__init__ broken_db) = inr tt
  /\ emitted (__init__ broken_db)
     = [QueryPartialDetails;
        ShowError "Database Error" "unable to open database file"]
  /\ tree (final (__init__ broken_db)) = []
  /\ status_var (final (__init__ broken_db)) = "Loaded 0 entries".
Proof.
  split; [reflexivity|].
  destruct (load_data_failure broken_db _build_layout _ eq_refl)
    as [H1 [H2 [_ [_ [H5 [H6 _]]]]]].
  exact (conj H1 (conj H2 (conj H5 H6))).
Defined.

(** C4: [_show_selected_details] does nothing when no row is selected.
    With a selected row whose id reads as the integer [n]: when
    [get_mal_info n] raises, it shows an error box with the text of the
    exception and returns; when [get_mal_info n] returns an empty
    sequence, it shows the information box "No additional metadata
    available." and returns.  The detail dialog is opened only when the
    lookup returned a non-empty sequence. *)
Theorem show_details_outcomes (db : DBHandler) (g : gui) :
  (selection g = [] -> _show_selected_details db g = (inr tt, g, []))
  /\ (forall first rest n exc,
        selection g = first :: rest ->
        PyStr.int_of_str first = Some n ->
        get_mal_info db n = inl exc ->
        _show_selected_details db g
        = (inr tt, g,
           [QueryMalInfo n; ShowError "Database Error" (exn_str exc)]))
  /\ (forall first rest n,
        selection g = first :: rest ->
        PyStr.int_of_str first = Some n ->
        get_mal_info db n = inr [] ->
        _show_selected_details db g
        = (inr tt, g,
           [QueryMalInfo n;
            ShowInfo "Malware Info" "No additional metadata available."]))
  /\ (forall e,
        In e (emitted (_show_selected_details db g)) ->
        detail_dialog e ->
        exists first rest n record more,
          selection g = first :: rest
          /\ PyStr.int_of_str first = Some n
          /\ get_mal_info db n = inr (record :: more)).
Proof.
  rewrite show_details_run. unfold show_details_paths.
  repeat split.
  - intros ->. reflexivity.
  - intros first rest n exc -> -> ->. reflexivity.
  - intros first rest n -> -> ->. reflexivity.
  - intros e Hin Hd. unfold emitted in Hin.
    destruct (selection g) as [|first rest]; [destruct Hin|].
    destruct (PyStr.int_of_str first) as [n|] eqn:Hint; [|destruct Hin].
    destruct (get_mal_info db n) as [exc | [|record more]] eqn:Hdb; simpl in Hin.
    + destruct Hd as [rec [_ ->]].
      destruct Hin as [H | [H | []]]; discriminate.
    + destruct Hd as [rec [Hlen ->]].
      destruct Hin as [H | [H | []]]; [discriminate|].
      exfalso.
      do 9 (destruct rec as [|? rec]; [discriminate|]).
      destruct rec; [|discriminate].
      unfold info_lines, info_line, PyStr.join in H. simpl in H. discriminate.
    + exists first, rest, n, record, more. repeat split; assumption.
Qed.

Lemma show_details_outcomes_witness :
  _show_selected_details scenario_db scenario_gui = (inr tt, scenario_gui, [])
  /\ emitted (_show_selected_details locked_db
                (mainloop locked_db [Select ["1"]] scenario_gui))
     = [QueryMalInfo 1; ShowError "Database Error" "database is locked"]
  /\ emitted (_show_selected_details scenario_db
                (mainloop scenario_db [Select ["1"]] scenario_gui))
     = [QueryMalInfo 1;
        ShowInfo "Malware Info" "No additional metadata available."].
Proof.
  split; [|split].
  - exact (proj1 (show_details_outcomes scenario_db scenario_gui) eq_refl).
  - rewrite (proj1 (proj2 (show_details_outcomes locked_db
               (mainloop locked_db [Select ["1"]] scenario_gui)))
             "1" [] 1%Z (DataAccessError "database is locked")
             eq_refl eq_refl eq_refl).
    reflexivity.
  - rewrite (proj1 (proj2 (proj2 (show_details_outcomes scenario_db
               (mainloop scenario_db [Select ["1"]] scenario_gui))))
             "1" [] 1%Z eq_refl eq_refl eq_refl).
    reflexivity.
Defined.

Lemma shown_or (v : value) : py_str (py_or v (VStr "N/A")) = shown v.
Proof.
  destruct v as [|n|s]; [reflexivity | |].
  - destruct n; reflexivity.
  - destruct s; reflexivity.
Qed.

(** C5: for a selected row whose id reads as [n] and a lookup that returns
    a nine-field tuple (type, name, version, author, language, date,
    architecture, platform, tags), the dialog shows nine lines labelled
    Name, Type, Version, Author, Language, Date, Architecture, Platform,
    Tags, in this order and separated by line feeds, each with its field,
    a missing or empty field being shown as "N/A"; with [author = None] the
    fourth line is "Author: N/A". *)
Theorem detail_dialog_lines (db : DBHandler) (g : gui) (first : string)
    (rest : list string) (n : Z)
    (mal_type name version author language date architecture platform tags : value)
    (more : list Tuple) :
  selection g = first :: rest ->
  PyStr.int_of_str first = Some n ->
  get_mal_info db n
  = inr ([mal_type; name; version; author; language; date; architecture;
          platform; tags] :: more) ->
  _show_selected_details db g
  = (inr tt, g,
     [QueryMalInfo n;
      ShowInfo "Malware Info"
        ("Name: " ++ shown name ++ "
Type: " ++ shown mal_type ++ "
Version: " ++ shown version ++ "
Author: " ++ shown author ++ "
Language: " ++ shown language ++ "
Date: " ++ shown date ++ "
Architecture: " ++ shown architecture ++ "
Platform: " ++ shown platform ++ "
Tags: " ++ shown tags)%string])
  /\ shown VNone = "N/A" /\ shown (VStr "") = "N/A"
  /\ (author = VNone ->
      emitted (_show_selected_details db g)
      = [QueryMalInfo n;
         ShowInfo "Malware Info"
           ("Name: " ++ shown name ++ "
Type: " ++ shown mal_type ++ "
Version: " ++ shown version ++ "
Author: N/A
Language: " ++ shown language ++ "
Date: " ++ shown date ++ "
Architecture: " ++ shown architecture ++ "
Platform: " ++ shown platform ++ "
Tags: " ++ shown tags)%string]).
Proof.
  intros Hsel Hint Hdb. rewrite show_details_run. unfold show_details_paths.
  rewrite Hsel, Hint, Hdb. simpl Nat.eqb. cbv iota.
  unfold info_lines, info_line. rewrite !shown_or.
  repeat split. intros ->. reflexivity.
Qed.

Lemma detail_dialog_lines_witness :
  selection (mainloop scenario_db [Select ["2"]] scenario_gui) = ["2"]
  /\ PyStr.int_of_str "2" = Some 2%Z
  /\ get_mal_info scenario_db 2 = inr [detail2]
  /\ emitted (_show_selected_details scenario_db
                (mainloop scenario_db [Select ["2"]] scenario_gui))
     = [QueryMalInfo 2;
        ShowInfo "Malware Info"
          "Name: B
Type: Worm
Version: 1.0
Author: N/A
Language: Python
Date: 2020
Architecture: x64
Platform: Linux
Tags: N/A"].
Proof.
  repeat (split; [reflexivity|]).
  rewrite (proj1 (detail_dialog_lines scenario_db
             (mainloop scenario_db [Select ["2"]] scenario_gui) "2" [] 2%Z
             (VStr "Worm") (VStr "B") (VStr "1.0") VNone (VStr "Python")
             (VStr "2020") (VStr "x64") (VStr "Linux") (VStr "") []
             eq_refl eq_refl eq_refl)).
  reflexivity.
Defined.

(** C9: in a running program, when the first selected item is the item of
    a displayed row with integer id [n] (whatever else is selected),
    [_show_selected_details] reads [n] back from the item id and asks
    [get_mal_info] exactly once, about [n]; reading back the string form
    of an integer gives that integer. *)
Theorem show_details_queries_first_selected (db : DBHandler) (g : gui)
    (it : item) (rest : list string) (n : Z) (flds : list value) :
  reachable db g ->
  In it (tree g) ->
  values it = VInt n :: flds ->
  selection g = iid it :: rest ->
  iid it = py_str (VInt n)
  /\ PyStr.int_of_str (py_str (VInt n)) = Some n
  /\ mal_info_queries (emitted (_show_selected_details db g)) = [n].
Proof.
  intros Hreach Hin Hval Hsel.
  apply reachable_consistent in Hreach. destruct Hreach as [_ [Hi _]].
  rewrite Forall_forall in Hi. specialize (Hi it Hin).
  rewrite Hval in Hi. unfold row_iid in Hi. simpl hd in Hi.
  split; [exact Hi | split; [apply int_of_str_str_int|]].
  rewrite show_details_run. unfold show_details_paths.
  rewrite Hsel, Hi. simpl py_str. rewrite int_of_str_str_int.
  destruct (get_mal_info db n) as [exc | [|record more]]; try reflexivity.
  destruct (Nat.eqb (List.length record) 9); reflexivity.
Qed.

Lemma scenario_reachable (evs : list event) :
  reachable scenario_db (mainloop scenario_db evs scenario_gui).
Proof. exists scenario_gui, evs. repeat split. Defined.

Lemma show_details_queries_first_selected_witness :
  selection (mainloop scenario_db [Select ["2"; "1"]] scenario_gui) = ["1"; "2"]
  /\ mal_info_queries
       (emitted (_show_selected_details scenario_db
                   (mainloop scenario_db [Select ["2"; "1"]] scenario_gui)))
     = [1%Z].
Proof.
  split; [reflexivity|].
  exact (proj2 (proj2 (show_details_queries_first_selected scenario_db
           (mainloop scenario_db [Select ["2"; "1"]] scenario_gui)
           (mkItem "1" row1 true) ["2"] 1%Z
           [VStr "Trojan"; VStr "C"; VStr "x86"; VStr "Win"; VStr "A"]
           (scenario_reachable [Select ["2"; "1"]])
           (or_introl eq_refl) eq_refl eq_refl))).
Defined.

(** C10: [_show_selected_details] leaves the widget state as it found
    it (row cache, table, status line, filter text, button) on every
    path: no selection, an item id that is no integer, a failing lookup,
    an empty result, a malformed tuple, a shown detail. *)
Theorem show_details_preserves_state (db : DBHandler) (g : gui) :
  final (_show_selected_details db g) = g
  /\ malware_rows (final (_show_selected_details db g)) = malware_rows g
  /\ displayed (final (_show_selected_details db g)) = displayed g
  /\ status_var (final (_show_selected_details db g)) = status_var g
  /\ search_var (final (_show_selected_details db g)) = search_var g.
Proof. rewrite show_details_final. repeat split. Qed.

(** C8: a selection-change event with at least one selected row enables
    the button, one with no selected row disables it, a render that runs
    to its end disables it and leaves nothing selected; and in every state
    of a running program the button is enabled if and only if some row is
    selected, every render of [_filter_rows] there running to its end. *)
Theorem details_button_follows_selection (db : DBHandler) :
  (forall g, selection g <> [] ->
             _on_select g = (inr tt, with_button g NORMAL, []))
  /\ (forall g, selection g = [] ->
                _on_select g = (inr tt, with_button g DISABLED, []))
  /\ (forall g rows,
        outcome (_refresh_tree rows g) = inr tt ->
        details_button (final (_refresh_tree rows g)) = DISABLED
        /\ selection (final (_refresh_tree rows g)) = [])
  /\ (forall g,
        reachable db g ->
        (details_button g = NORMAL <-> selection g <> [])
        /\ outcome (_filter_rows g) = inr tt
        /\ details_button (final (_filter_rows g)) = DISABLED).
Proof.
  split; [|split; [|split]].
  - intros g H. rewrite on_select_run.
    destruct (selection g); [contradiction | reflexivity].
  - intros g H. rewrite on_select_run. now rewrite H.
  - intros g rows H. apply refresh_tree_success in H.
    rewrite refresh_tree_ok by assumption.
    split; [reflexivity | apply selection_rendered].
  - intros g H. apply reachable_consistent in H. destruct H as [Hr [_ Hb]].
    split; [exact Hb|]. rewrite filter_rows_run by assumption.
    split; reflexivity.
Qed.

Lemma details_button_follows_selection_witness :
  details_button (mainloop scenario_db [Select ["2"]] scenario_gui) = NORMAL
  /\ selection (mainloop scenario_db [Select ["2"]] scenario_gui) = ["2"]
  /\ details_button (mainloop scenario_db [Select ["2"]; Select []] scenario_gui)
     = DISABLED.
Proof.
  split; [|split; [reflexivity|]].
  - apply (proj1 (proj2 (proj2 (proj2
             (details_button_follows_selection scenario_db)))
             (mainloop scenario_db [Select ["2"]] scenario_gui)
             (scenario_reachable [Select ["2"]]))).
    discriminate.
  - destruct (details_button
                (mainloop scenario_db [Select ["2"]; Select []] scenario_gui))
      eqn:E; [|reflexivity].
    exfalso.
    apply (proj1 (proj1 (proj2 (proj2 (proj2
             (details_button_follows_selection scenario_db)))
             (mainloop scenario_db [Select ["2"]; Select []] scenario_gui)
             (scenario_reachable [Select ["2"]; Select []]))) E).
    reflexivity.
Defined.

Lemma filter_rows_keeps_cache (g : gui) :
  malware_rows (final (_filter_rows g)) = malware_rows g.
Proof.
  unfold _filter_rows, bind at 1, get at 1.
  destruct (String.eqb (PyStr.lower (PyStr.strip (search_var g))) "");
    cbv zeta; rewrite refresh_tree_run;
    match goal with |- context [insert_rows ?r ?t] =>
      destruct (insert_rows r t) as [[e|] t'] end;
    reflexivity.
Qed.

Lemma dispatch_keeps_cache (db : DBHandler) (ev : event) (g : gui) :
  malware_rows (final (dispatch db ev g)) = malware_rows g.
Proof.
  destruct ev as [text | | items |]; simpl dispatch.
  - reflexivity.
  - apply filter_rows_keeps_cache.
  - unfold bind at 1, select_items, bind at 1, get at 1, set_tree, bind at 1,
      get at 1, put at 1. simpl app. rewrite on_select_run. reflexivity.
  - unfold bind at 1, get at 1. destruct (details_button g); [|reflexivity].
    pose proof (show_details_final db g) as F.
    destruct (_show_selected_details db g) as [[r g'] l].
    unfold final in F |- *; simpl in F |- *. now subst g'.
Qed.

Lemma mainloop_keeps_cache (db : DBHandler) (evs : list event) (g : gui) :
  malware_rows (mainloop db evs g) = malware_rows g.
Proof.
  revert g. induction evs as [|ev evs IH]; intros g; [reflexivity|].
  simpl. rewrite IH. apply dispatch_keeps_cache.
Qed.

(** C2, as stated, fails: after the entry is edited and before a key is
    released (a paste with the mouse, a key held down) the table still
    shows the rows of the previous text.  Here the text reads "linux" and
    the table shows both rows of scenario A, not only the second. *)
Lemma stale_table_after_edit :
  reachable scenario_db (mainloop scenario_db [Edit "linux"] scenario_gui)
  /\ search_var (mainloop scenario_db [Edit "linux"] scenario_gui) = "linux"
  /\ displayed (mainloop scenario_db [Edit "linux"] scenario_gui) = [row1; row2]
  /\ view "linux" (malware_rows (mainloop scenario_db [Edit "linux"] scenario_gui))
     = [row2]
  /\ ~ in_sync (mainloop scenario_db [Edit "linux"] scenario_gui).
Proof.
  split; [apply scenario_reachable|].
  repeat (split; [reflexivity|]).
  unfold in_sync. discriminate.
Qed.

(** C2, amended: in every state of a running program reached by events of
    which the last edit of the entry, if any, was followed by a key
    release, the table shows exactly the rows of the cache that the text
    of the entry lets through (all rows for a blank text, otherwise the
    rows with a field that contains the trimmed text, case-insensitively),
    in the order of the cache; and neither [_filter_rows] nor any other
    event handler changes the cache. *)
Theorem table_in_sync_after_key_release (db : DBHandler) (evs : list event) :
  outcome (__init__ db) = inr tt ->
  filter_applied true evs = true ->
  displayed (mainloop db evs (final (__init__ db)))
  = view (search_var (mainloop db evs (final (__init__ db))))
         (malware_rows (mainloop db evs (final (__init__ db))))
  /\ (forall g, malware_rows (final (_filter_rows g)) = malware_rows g)
  /\ malware_rows (mainloop db evs (final (__init__ db)))
     = malware_rows (final (__init__ db)).
Proof.
  intros Hok Hf. split; [|split].
  - apply (mainloop_in_sync db evs true); [now apply init_consistent | | exact Hf].
    intros _. pose proof (init_consistent db Hok) as [Hr _].
    revert Hok Hr. unfold __init__, in_sync.
    destruct (get_partial_details db) as [exc | rows] eqn:E.
    + rewrite (load_data_raise db _ exc E). reflexivity.
    + rewrite (load_data_rows db _ rows E). unfold outcome at 1, final; simpl.
      intros H _. apply refresh_tree_success in H.
      rewrite refresh_tree_ok by assumption. simpl.
      rewrite displayed_rendered. reflexivity.
  - apply filter_rows_keeps_cache.
  - apply mainloop_keeps_cache.
Qed.

Lemma table_in_sync_after_key_release_witness :
  outcome (__init__ scenario_db) = inr tt
  /\ filter_applied true [Edit " LINUX "; KeyRelease; Select ["2"]] = true
  /\ displayed (mainloop scenario_db [Edit " LINUX "; KeyRelease; Select ["2"]]
                  (final (__init__ scenario_db)))
     = [row2].
Proof.
  split; [reflexivity | split; [reflexivity|]].
  rewrite (proj1 (table_in_sync_after_key_release scenario_db
             [Edit " LINUX "; KeyRelease; Select ["2"]] eq_refl eq_refl)).
  reflexivity.
Defined.

(** ** Further properties of the methods *)

Section Renders.

Lemma insert_rows_prefix (pre rest : list Tuple) :
  forall t,
    Forall (fun row => row <> []) pre ->
    ~ In "" (map row_iid pre) ->
    NoDup (map row_iid pre) ->
    (forall i, In i (map row_iid pre) -> ~ In i (map iid t)) ->
    insert_rows (pre ++ rest) t = insert_rows rest (t ++ map item_of_row pre).
Proof.
  induction pre as [|row pre IH]; intros t Hne Hnil Hnd Hfresh.
  - simpl. now rewrite app_nil_r.
  - apply Forall_cons_iff in Hne. destruct Hne as [Hrow Hne].
    apply NoDup_cons_iff in Hnd. destruct Hnd as [Hnew Hnd].
    destruct row as [|first flds]; [contradiction|].
    assert (E1 : String.eqb (py_str first) "" = false).
    { apply String.eqb_neq. intros E. apply Hnil. left. exact E. }
    assert (E2 : mem (py_str first) (map iid t) = false).
    { apply not_true_is_false. intros E. apply mem_In in E.
      apply (Hfresh (py_str first)); [now left | exact E]. }
    simpl app. simpl insert_rows. rewrite E1, E2. simpl orb. cbv iota.
    rewrite IH; try assumption.
    + rewrite <- app_assoc. reflexivity.
    + intros Hin. apply Hnil. now right.
    + intros i Hi. rewrite map_app, in_app_iff. simpl.
      intros [Hin | [<- | []]].
      * apply (Hfresh i); [now right | exact Hin].
      * apply Hnew. exact Hi.
Qed.

Lemma map_iid_items (rows : list Tuple) :
  map iid (map item_of_row rows) = map row_iid rows.
Proof. rewrite map_map. reflexivity. Qed.

(** X1: [_refresh_tree] runs to its end exactly when the rows can be
    shown: every row has a first field and the string forms of the first
    fields are non-empty and pairwise different. *)
Theorem refresh_tree_completes_iff (rows : list Tuple) (g : gui) :
  outcome (_refresh_tree rows g) = inr tt <-> renderable rows = true.
Proof.
  split.
  - apply refresh_tree_success.
  - intros H. now rewrite refresh_tree_ok.
Qed.

(** X2: [_refresh_tree] stops at the first row it cannot insert.  When
    the rows before it can be shown and the row is empty, or its item id is
    empty or is the id of an earlier row, the call raises ([IndexError] for
    the empty row, [TclError] otherwise); the table then holds the earlier
    rows only, and the status line and the button are as before the
    call. *)
Theorem refresh_tree_stops_at_bad_row (pre post : list Tuple) (row : Tuple)
    (g : gui) :
  renderable pre = true ->
  row = [] \/ row_iid row = "" \/ In (row_iid row) (map row_iid pre) ->
  outcome (_refresh_tree (pre ++ row :: post) g)
  = inl (match row with
         | [] => IndexError "tuple index out of range"
         | _ :: _ => TclError ("Item " ++ row_iid row ++ " already exists")
         end)
  /\ displayed (final (_refresh_tree (pre ++ row :: post) g)) = pre
  /\ status_var (final (_refresh_tree (pre ++ row :: post) g)) = status_var g
  /\ details_button (final (_refresh_tree (pre ++ row :: post) g))
     = details_button g.
Proof.
  intros Hpre Hbad. apply renderable_iff in Hpre.
  destruct Hpre as [Hne [Hnil Hnd]].
  rewrite refresh_tree_run.
  rewrite insert_rows_prefix by (try assumption; intros i _ []).
  simpl app.
  assert (Hshown : map values (map item_of_row pre) = pre).
  { rewrite map_map. apply map_id. }
  destruct row as [|first flds].
  - simpl insert_rows. unfold outcome, final, displayed. simpl.
    repeat split; try reflexivity. exact Hshown.
  - simpl insert_rows. rewrite map_iid_items.
    assert (E : String.eqb (py_str first) ""
                || mem (py_str first) (map row_iid pre) = true).
    { apply orb_true_iff.
      destruct Hbad as [Hb | [Hb | Hb]]; [discriminate | left | right].
      - apply String.eqb_eq. exact Hb.
      - apply mem_In. exact Hb. }
    rewrite E. unfold outcome, final, displayed. simpl.
    repeat split; try reflexivity. exact Hshown.
Qed.

Lemma refresh_tree_stops_at_bad_row_witness :
  renderable [ [VInt 1; VStr "Trojan"; VStr "A"]; [VInt 2; VStr "Worm"; VStr "B"] ]
  = true
  /\ outcome (_refresh_tree duplicate_cache _build_layout)
     = inl (TclError "Item 1 already exists")
  /\ displayed (final (_refresh_tree duplicate_cache _build_layout))
     = [ [VInt 1; VStr "Trojan"; VStr "A"]; [VInt 2; VStr "Worm"; VStr "B"] ]
  /\ status_var (final (_refresh_tree duplicate_cache _build_layout))
     = "Loaded 0 entries".
Proof.
  split; [reflexivity|].
  destruct (refresh_tree_stops_at_bad_row
              [ [VInt 1; VStr "Trojan"; VStr "A"]; [VInt 2; VStr "Worm"; VStr "B"] ]
              [ [VInt 3; VStr "Rootkit"; VStr "D"] ]
              [VInt 1; VStr "Virus"; VStr "C"] _build_layout eq_refl
              (or_intror (or_intror (or_introl eq_refl))))
    as [H1 [H2 [H3 _]]].
  exact (conj H1 (conj H2 H3)).
Defined.

(** X3: when [get_partial_details] returns rows that can be shown,
    [_load_data] returns normally after this one query and without any
    message box; the rows are the cache and the content of the table, the
    status line gives their number and the button is disabled. *)
Theorem load_data_success (db : DBHandler) (g : gui) (rows : list Tuple) :
  get_partial_details db = inr rows ->
  renderable rows = true ->
  outcome (_load_data db g) = inr tt
  /\ emitted (_load_data db g) = [QueryPartialDetails]
  /\ malware_rows (final (_load_data db g)) = rows
  /\ displayed (final (_load_data db g)) = rows
  /\ selection (final (_load_data db g)) = []
  /\ status_var (final (_load_data db g)) = status_text rows
  /\ details_button (final (_load_data db g)) = DISABLED.
Proof.
  intros Hdb Hr. rewrite (load_data_rows db g rows Hdb).
  rewrite refresh_tree_ok by assumption.
  unfold outcome, final, emitted. simpl fst. simpl snd.
  rewrite displayed_rendered, selection_rendered.
  repeat split; reflexivity.
Qed.

Lemma load_data_success_witness :
  get_partial_details scenario_db = inr scenario_cache
  /\ renderable scenario_cache = true
  /\ displayed (final (__init__ scenario_db)) = scenario_cache
  /\ status_var (final (__init__ scenario_db)) = "Loaded 2 entries".
Proof.
  split; [reflexivity | split; [reflexivity|]].
  destruct (load_data_success scenario_db _build_layout scenario_cache
              eq_refl eq_refl) as [_ [_ [_ [H4 [_ [H6 _]]]]]].
  exact (conj H4 H6).
Defined.

(** X4: when [get_partial_details] returns rows that cannot all be shown,
    the render of the [finally] clause raises and that exception leaves
    [_load_data]: it is not caught by the [except] clause, no message box
    is shown, and the cache keeps the rows that were returned. *)
Theorem load_data_unshowable_rows (db : DBHandler) (g : gui)
    (rows : list Tuple) :
  get_partial_details db = inr rows ->
  renderable rows = false ->
  (exists e, outcome (_load_data db g) = inl e)
  /\ emitted (_load_data db g) = [QueryPartialDetails]
  /\ malware_rows (final (_load_data db g)) = rows.
Proof.
  intros Hdb Hr. rewrite (load_data_rows db g rows Hdb).
  unfold outcome at 1, emitted, final at 1. simpl fst. simpl snd.
  split; [|split; [reflexivity|]].
  - destruct (outcome (_refresh_tree rows (with_rows g rows))) as [e|[]] eqn:E.
    + now exists e.
    + apply refresh_tree_success in E. congruence.
  - rewrite refresh_tree_run.
    destruct (insert_rows rows []) as [[e|] t]; reflexivity.
Qed.

Lemma load_data_unshowable_rows_witness :
  get_partial_details duplicate_db = inr duplicate_cache
  /\ renderable duplicate_cache = false
  /\ emitted (__init__ duplicate_db) = [QueryPartialDetails]
  /\ malware_rows (final (__init__ duplicate_db)) = duplicate_cache.
Proof.
  split; [reflexivity | split; [reflexivity|]].
  exact (proj2 (load_data_unshowable_rows duplicate_db _build_layout
                  duplicate_cache eq_refl eq_refl)).
Defined.

End Renders.

Section IntegerIds.

Lemma integer_rows_nonempty (ids : list Z) (rows : list Tuple) :
  Forall2 (fun n row => exists flds, row = VInt n :: flds) ids rows ->
  Forall (fun row => row <> []) rows
  /\ map row_iid rows = map PyStr.str_int ids.
Proof.
  induction 1 as [|n row ids rows [flds ->] _ [IH1 IH2]]; [now split|].
  split.
  - constructor; [discriminate | exact IH1].
  - simpl. now rewrite IH2.
Qed.

Lemma str_int_NoDup (ids : list Z) :
  NoDup ids -> NoDup (map PyStr.str_int ids).
Proof.
  induction 1 as [|n ids Hnew _ IH]; simpl; constructor; [|exact IH].
  rewrite in_map_iff. intros [m [Hm Hin]].
  apply str_int_inj in Hm. now subst m.
Qed.

(** X5: rows whose first fields are pairwise different integers can always
    be shown, since [str] maps different integers to different, non-empty
    item ids; a database that returns such rows lets the constructor run to
    its end with all of them in the table. *)
Theorem integer_ids_are_shown (db : DBHandler) (ids : list Z)
    (rows : list Tuple) :
  NoDup ids ->
  Forall2 (fun n row => exists flds, row = VInt n :: flds) ids rows ->
  get_partial_details db = inr rows ->
  renderable rows = true
  /\ outcome (__init__ db) = inr tt
  /\ displayed (final (__init__ db)) = rows
  /\ map iid (tree (final (__init__ db))) = map PyStr.str_int ids.
Proof.
  intros Hnd Hrows Hdb.
  destruct (integer_rows_nonempty ids rows Hrows) as [Hne Hids].
  assert (Hr : renderable rows = true).
  { apply renderable_iff. rewrite Hids. repeat split.
    - exact Hne.
    - rewrite in_map_iff. intros [n [Hn _]].
      now apply str_int_nonempty in Hn.
    - now apply str_int_NoDup. }
  split; [exact Hr|].
  unfold __init__. rewrite (load_data_rows db _ rows Hdb).
  rewrite refresh_tree_ok by assumption.
  unfold outcome, final. simpl fst. simpl snd.
  rewrite displayed_rendered. simpl tree. rewrite map_iid_items, Hids.
  repeat split; reflexivity.
Qed.

Lemma integer_ids_are_shown_witness :
  NoDup [1%Z; 2%Z]
  /\ get_partial_details scenario_db = inr scenario_cache
  /\ map iid (tree (final (__init__ scenario_db))) = ["1"; "2"].
Proof.
  assert (Hnd : NoDup [1%Z; 2%Z]).
  { constructor; [intros [H | []]; discriminate|].
    constructor; [intros []|constructor]. }
  split; [exact Hnd | split; [reflexivity|]].
  refine (proj2 (proj2 (proj2 (integer_ids_are_shown scenario_db [1%Z; 2%Z]
            scenario_cache Hnd _ eq_refl)))).
  constructor; [eexists; reflexivity|].
  constructor; [eexists; reflexivity|constructor].
Defined.

End IntegerIds.

Section FilterText.

Lemma append_assoc3 (a b c : string) :
  ((a ++ b) ++ c)%string = (a ++ b ++ c)%string.
Proof. induction a as [|x a IH]; simpl; [reflexivity | now rewrite IH]. Qed.

Lemma append_empty_r (a : string) : (a ++ "")%string = a.
Proof. induction a as [|x a IH]; simpl; [reflexivity | now rewrite IH]. Qed.

Lemma isspace_lower_char (c : ascii) :
  PyStr.isspace (PyStr.lower_char c) = PyStr.isspace c.
Proof. destruct c as [[] [] [] [] [] [] [] []]; reflexivity. Qed.

Lemma lstrip_lower (s : string) :
  PyStr.lstrip (PyStr.lower s) = PyStr.lower (PyStr.lstrip s).
Proof.
  induction s as [|c s IH]; simpl; [reflexivity|].
  rewrite isspace_lower_char. destruct (PyStr.isspace c); [exact IH | reflexivity].
Qed.

Lemma rstrip_lower (s : string) :
  PyStr.rstrip (PyStr.lower s) = PyStr.lower (PyStr.rstrip s).
Proof.
  induction s as [|c s IH]; simpl; [reflexivity|].
  rewrite IH, isspace_lower_char.
  destruct (PyStr.rstrip s); simpl; [destruct (PyStr.isspace c)|]; reflexivity.
Qed.

(** Trimming and lower-casing commute. *)
Lemma strip_lower (s : string) :
  PyStr.strip (PyStr.lower s) = PyStr.lower (PyStr.strip s).
Proof. unfold PyStr.strip. now rewrite lstrip_lower, rstrip_lower. Qed.

Lemma lstrip_blank (w s : string) :
  blank w -> PyStr.lstrip (w ++ s) = PyStr.lstrip s.
Proof.
  induction w as [|c w IH]; simpl; [reflexivity|].
  intros [Hc Hw]. rewrite Hc. now apply IH.
Qed.

Lemma rstrip_blank (w : string) : blank w -> PyStr.rstrip w = "".
Proof.
  induction w as [|c w IH]; simpl; [reflexivity|].
  intros [Hc Hw]. now rewrite (IH Hw), Hc.
Qed.

Lemma rstrip_append_blank (s w : string) :
  blank w -> PyStr.rstrip (s ++ w) = PyStr.rstrip s.
Proof.
  intros Hw. induction s as [|c s IH]; simpl.
  - now apply rstrip_blank.
  - now rewrite IH.
Qed.

Lemma lstrip_empty_blank (s : string) : PyStr.lstrip s = "" -> blank s.
Proof.
  induction s as [|c s IH]; simpl; [reflexivity|].
  destruct (PyStr.isspace c); [|discriminate].
  intros H. split; [reflexivity | now apply IH].
Qed.

Lemma blank_append (a b : string) : blank a -> blank b -> blank (a ++ b).
Proof.
  induction a as [|c a IH]; simpl; [now intros|].
  intros [Hc Ha] Hb. split; [exact Hc | now apply IH].
Qed.

Lemma lstrip_append (s x : string) :
  PyStr.lstrip s <> "" ->
  PyStr.lstrip (s ++ x) = (PyStr.lstrip s ++ x)%string.
Proof.
  induction s as [|c s IH]; simpl; [contradiction|].
  destruct (PyStr.isspace c); [exact IH | reflexivity].
Qed.

Lemma lstrip_blank_all (w : string) : blank w -> PyStr.lstrip w = "".
Proof.
  induction w as [|c w IH]; simpl; [reflexivity|].
  intros [Hc Hw]. rewrite Hc. now apply IH.
Qed.

(** White space around a text does not change what [strip] gives. *)
Lemma strip_padding (w1 w2 s : string) :
  blank w1 -> blank w2 -> PyStr.strip (w1 ++ s ++ w2) = PyStr.strip s.
Proof.
  intros H1 H2. unfold PyStr.strip. rewrite lstrip_blank by assumption.
  destruct (PyStr.lstrip s) as [|c l] eqn:E.
  - apply lstrip_empty_blank in E.
    now rewrite lstrip_blank_all by (now apply blank_append).
  - rewrite lstrip_append by (rewrite E; discriminate).
    rewrite E. now apply rstrip_append_blank.
Qed.

Lemma filter_rows_same_text (g : gui) (a b : string) :
  PyStr.lower (PyStr.strip a) = PyStr.lower (PyStr.strip b) ->
  outcome (_filter_rows (with_text g a)) = outcome (_filter_rows (with_text g b))
  /\ tree (final (_filter_rows (with_text g a)))
     = tree (final (_filter_rows (with_text g b)))
  /\ status_var (final (_filter_rows (with_text g a)))
     = status_var (final (_filter_rows (with_text g b)))
  /\ details_button (final (_filter_rows (with_text g a)))
     = details_button (final (_filter_rows (with_text g b))).
Proof.
  intros H. unfold _filter_rows, bind, get, with_text.
  cbn [search_var malware_rows]. rewrite H.
  destruct (String.eqb (PyStr.lower (PyStr.strip b)) ""); cbv zeta;
    rewrite !refresh_tree_run; cbn [malware_rows];
    match goal with |- context [insert_rows ?r ?t] =>
      destruct (insert_rows r t) as [[e|] t'] end;
    repeat split; reflexivity.
Qed.

(** X6: filters do not add up.  With a cache that can be shown, filtering
    for one text and then for another leaves the window exactly as
    filtering for the second text alone: each key release starts from the
    whole cache. *)
Theorem filters_do_not_add_up (db : DBHandler) (g : gui) (a b : string) :
  renderable (malware_rows g) = true ->
  mainloop db [Edit a; KeyRelease; Edit b; KeyRelease] g
  = mainloop db [Edit b; KeyRelease] g.
Proof.
  intros Hr. simpl mainloop. simpl dispatch.
  change (final (set_search_var a g)) with (with_text g a).
  change (final (set_search_var b g)) with (with_text g b).
  rewrite (filter_rows_run (with_text g a)) by exact Hr.
  unfold final at 3. simpl fst. simpl snd.
  change (final (set_search_var b (rendered (with_text g a)
            (view (search_var (with_text g a)) (malware_rows (with_text g a))))))
    with (with_text (rendered (with_text g a)
            (view (search_var (with_text g a)) (malware_rows (with_text g a)))) b).
  rewrite !filter_rows_run by exact Hr. reflexivity.
Qed.

Lemma filters_do_not_add_up_witness :
  renderable (malware_rows scenario_gui) = true
  /\ displayed (mainloop scenario_db
                  [Edit "trojan"; KeyRelease; Edit "worm"; KeyRelease]
                  scenario_gui)
     = [row2].
Proof.
  split; [reflexivity|].
  rewrite (filters_do_not_add_up scenario_db scenario_gui "trojan" "worm"
             eq_refl).
  reflexivity.
Defined.

Lemma contains_trans (a b c : string) :
  PyStr.contains a b = true -> PyStr.contains b c = true ->
  PyStr.contains a c = true.
Proof.
  rewrite !contains_iff. intros [p [q Hb]] [u [v Hc]].
  exists (u ++ p)%string, (q ++ v)%string.
  now rewrite Hc, Hb, !append_assoc3.
Qed.

(** X7: a text contained in another shows at least its rows.  With a
    cache that can be shown, whenever the trimmed, lower-cased text of one
    filter occurs in the trimmed, lower-cased text of a second, every row
    displayed for the second is displayed for the first. *)
Theorem contained_text_shows_more (g : gui) (t1 t2 : string) :
  renderable (malware_rows g) = true ->
  PyStr.contains (PyStr.lower (PyStr.strip t1)) (PyStr.lower (PyStr.strip t2))
  = true ->
  incl (displayed (final (_filter_rows (with_text g t2))))
       (displayed (final (_filter_rows (with_text g t1)))).
Proof.
  intros Hr Hsub.
  rewrite (filter_rows_run (with_text g t2)) by exact Hr.
  rewrite (filter_rows_run (with_text g t1)) by exact Hr.
  unfold final. simpl fst. simpl snd. rewrite !displayed_rendered.
  simpl search_var. simpl malware_rows.
  rewrite !view_filter by exact Hr.
  intros row Hin. apply filter_In in Hin. destruct Hin as [Hrow Hm].
  apply filter_In. split; [exact Hrow|].
  unfold row_matches in *. apply existsb_exists in Hm.
  destruct Hm as [field [Hf Hc]]. apply existsb_exists. exists field.
  split; [exact Hf | exact (contains_trans _ _ _ Hsub Hc)].
Qed.

Lemma contained_text_shows_more_witness :
  renderable (malware_rows scenario_gui) = true
  /\ PyStr.contains (PyStr.lower (PyStr.strip "IN"))
                    (PyStr.lower (PyStr.strip " Linux ")) = true
  /\ incl (displayed (final (_filter_rows (with_text scenario_gui " Linux "))))
          (displayed (final (_filter_rows (with_text scenario_gui "IN")))).
Proof.
  split; [reflexivity | split; [reflexivity|]].
  exact (contained_text_shows_more scenario_gui "IN" " Linux " eq_refl eq_refl).
Defined.

(** X8: the filter text counts without its letter case and without the
    white space around it: two texts that differ only in these give the
    same outcome, table, status line and button. *)
Theorem filter_ignores_case_and_padding (g : gui) (w1 w2 t t' : string) :
  blank w1 ->
  blank w2 ->
  PyStr.lower t' = PyStr.lower t ->
  outcome (_filter_rows (with_text g (w1 ++ t' ++ w2)))
  = outcome (_filter_rows (with_text g t))
  /\ tree (final (_filter_rows (with_text g (w1 ++ t' ++ w2))))
     = tree (final (_filter_rows (with_text g t)))
  /\ status_var (final (_filter_rows (with_text g (w1 ++ t' ++ w2))))
     = status_var (final (_filter_rows (with_text g t)))
  /\ details_button (final (_filter_rows (with_text g (w1 ++ t' ++ w2))))
     = details_button (final (_filter_rows (with_text g t))).
Proof.
  intros H1 H2 Hcase. apply filter_rows_same_text.
  rewrite strip_padding by assumption.
  now rewrite <- !strip_lower, Hcase.
Qed.

Lemma filter_ignores_case_and_padding_witness :
  blank "  " /\ blank " " /\ PyStr.lower "LiNuX" = PyStr.lower "linux"
  /\ displayed (final (_filter_rows (with_text scenario_gui "  LiNuX ")))
     = [row2].
Proof.
  assert (H1 : blank "  ") by exact (conj eq_refl (conj eq_refl I)).
  assert (H2 : blank " ") by exact (conj eq_refl I).
  split; [exact H1 | split; [exact H2 | split; [reflexivity|]]].
  unfold displayed.
  transitivity
    (map values (tree (final (_filter_rows (with_text scenario_gui "linux")))));
    [|reflexivity].
  exact (f_equal (map values)
           (proj1 (proj2 (filter_ignores_case_and_padding scenario_gui
              "  " " " "linux" "LiNuX" H1 H2 eq_refl)))).
Defined.

End FilterText.

Section Invariants.

Variable db : DBHandler.

Lemma tidy_rendered (g : gui) (text : string) :
  tidy (rendered g (view text (malware_rows g))).
Proof.
  split.
  - now rewrite displayed_rendered.
  - exists text. now rewrite displayed_rendered.
Qed.

Lemma dispatch_tidy (ev : event) (g : gui) :
  consistent g -> tidy g -> tidy (final (dispatch db ev g)).
Proof.
  intros [Hr _] Ht. destruct ev as [text | | items |]; simpl dispatch.
  - exact Ht.
  - rewrite filter_rows_run by exact Hr. apply tidy_rendered.
  - unfold bind at 1, select_items, bind at 1, get at 1, set_tree, bind at 1,
      get at 1, put at 1. simpl app. rewrite on_select_run.
    unfold final, tidy, displayed in *. simpl. rewrite map_map. simpl.
    exact Ht.
  - unfold bind at 1, get at 1. destruct (details_button g); [|exact Ht].
    pose proof (show_details_final db g) as F.
    destruct (_show_selected_details db g) as [[r g'] l].
    unfold final in F |- *; simpl in F |- *. now subst g'.
Qed.

Lemma mainloop_tidy (evs : list event) (g : gui) :
  consistent g -> tidy g -> tidy (mainloop db evs g).
Proof.
  revert g. induction evs as [|ev evs IH]; intros g Hc Ht; [exact Ht|].
  simpl. apply IH; [now apply dispatch_consistent | now apply dispatch_tidy].
Qed.

Lemma init_tidy : outcome (__init__ db) = inr tt -> tidy (final (__init__ db)).
Proof.
  unfold __init__. destruct (get_partial_details db) as [exc | rows] eqn:E.
  - rewrite (load_data_raise db _ exc E). intros _.
    apply (tidy_rendered (with_rows _build_layout []) "").
  - rewrite (load_data_rows db _ rows E). unfold outcome at 1, final at 1. simpl.
    intros H. apply refresh_tree_success in H.
    rewrite refresh_tree_ok by exact H. unfold final; simpl.
    apply (tidy_rendered (with_rows _build_layout rows) "").
Qed.

Lemma reachable_tidy (g : gui) : reachable db g -> tidy g.
Proof.
  intros [g0 [evs [Hok [<- ->]]]].
  apply mainloop_tidy; [now apply init_consistent | now apply init_tidy].
Qed.

Lemma view_length (text : string) (rows : list Tuple) :
  List.length (view text rows) <= List.length rows.
Proof.
  unfold view. destruct (String.eqb _ ""); [apply le_n | apply filter_length_le].
Qed.

Lemma view_incl (text : string) (rows : list Tuple) :
  incl (view text rows) rows.
Proof.
  unfold view. destruct (String.eqb _ ""); [apply incl_refl | apply incl_filter].
Qed.

(** X9: in every state of a running program the status line counts the
    rows that the table shows, which are never more than the rows of the
    cache: after a filter it gives the number of matches, not the number
    of rows loaded. *)
Theorem status_line_counts_table_rows (g : gui) :
  reachable db g ->
  status_var g
  = ("Loaded " ++ PyStr.str_int (Z.of_nat (List.length (displayed g)))
      ++ " entries")%string
  /\ List.length (displayed g) <= List.length (malware_rows g).
Proof.
  intros H. apply reachable_tidy in H. destruct H as [Hs [text Hv]].
  split; [exact Hs|]. rewrite Hv. apply view_length.
Qed.

(** X10: in every state of a running program, also between an edit of
    the entry and the next key release, the table shows rows of the cache
    only (the view of the cache under some text), and no two items of the
    table have the same item id. *)
Theorem table_shows_cache_rows (g : gui) :
  reachable db g ->
  incl (displayed g) (malware_rows g)
  /\ (exists text, displayed g = view text (malware_rows g))
  /\ NoDup (map iid (tree g)).
Proof.
  intros H. pose proof (reachable_consistent db g H) as [Hr [Hi _]].
  apply reachable_tidy in H. destruct H as [_ [text Hv]].
  split; [rewrite Hv; apply view_incl | split; [now exists text|]].
  assert (Hids : map iid (tree g) = map row_iid (displayed g)).
  { unfold displayed. rewrite map_map. apply map_ext_in.
    intros it Hit. rewrite Forall_forall in Hi. now apply Hi. }
  rewrite Hids, Hv.
  pose proof (view_renderable text _ Hr) as Hvr.
  apply renderable_iff in Hvr. apply Hvr.
Qed.

End Invariants.

Lemma status_line_counts_table_rows_witness :
  status_var (mainloop scenario_db [Edit "linux"; KeyRelease] scenario_gui)
  = "Loaded 1 entries"
  /\ List.length (malware_rows
       (mainloop scenario_db [Edit "linux"; KeyRelease] scenario_gui)) = 2.
Proof.
  split; [|reflexivity].
  rewrite (proj1 (status_line_counts_table_rows scenario_db _
             (scenario_reachable [Edit "linux"; KeyRelease]))).
  reflexivity.
Defined.

Lemma table_shows_cache_rows_witness :
  incl (displayed (mainloop scenario_db [Edit "worm"; KeyRelease; Edit "x"]
                     scenario_gui))
       scenario_cache.
Proof.
  exact (proj1 (table_shows_cache_rows scenario_db _
           (scenario_reachable [Edit "worm"; KeyRelease; Edit "x"]))).
Defined.

Section Collaborators.

Variable db : DBHandler.

Lemma refresh_tree_silent (rows : list Tuple) (g : gui) :
  emitted (_refresh_tree rows g) = [].
Proof.
  rewrite refresh_tree_run.
  destruct (insert_rows rows []) as [[e|] t]; reflexivity.
Qed.

Lemma filter_rows_silent (g : gui) : emitted (_filter_rows g) = [].
Proof.
  unfold _filter_rows, bind at 1, get at 1.
  pose proof (refresh_tree_silent (malware_rows g) g) as H1.
  pose proof (refresh_tree_silent
                (filter (row_matches (PyStr.lower (PyStr.strip (search_var g))))
                        (malware_rows g)) g) as H2.
  destruct (String.eqb (PyStr.lower (PyStr.strip (search_var g))) ""); cbv zeta.
  - clear H2. destruct (_refresh_tree (malware_rows g) g) as [[r g'] l].
    unfold emitted in *. simpl in *. now subst l.
  - clear H1. destruct (_refresh_tree _ g) as [[r g'] l].
    unfold emitted in *. simpl in *. now subst l.
Qed.

Lemma mal_info_queries_app (l1 l2 : list effect) :
  mal_info_queries (l1 ++ l2) = mal_info_queries l1 ++ mal_info_queries l2.
Proof.
  induction l1 as [|e l1 IH]; [reflexivity|].
  destruct e; simpl; now rewrite IH.
Qed.

Lemma select_silent (items : list string) (g : gui) :
  emitted (dispatch db (Select items) g) = [].
Proof.
  simpl dispatch.
  unfold bind at 1, select_items, bind at 1, get at 1, set_tree, bind at 1,
    get at 1, put at 1. simpl app. now rewrite on_select_run.
Qed.

Lemma click_log (g : gui) :
  emitted (dispatch db ClickDetails g)
  = match details_button g with
    | NORMAL => emitted (show_details_paths db g)
    | DISABLED => []
    end.
Proof.
  simpl dispatch. unfold bind at 1, get at 1.
  destruct (details_button g); [|reflexivity].
  rewrite show_details_run.
  destruct (show_details_paths db g) as [[r g'] l]. reflexivity.
Qed.

(** What one event adds to the log: nothing unless the button is pressed,
    and then at most one lookup followed by at most one message box. *)
Lemma dispatch_log (ev : event) (g : gui) :
  ~ In QueryPartialDetails (emitted (dispatch db ev g))
  /\ List.length (mal_info_queries (emitted (dispatch db ev g)))
     <= clicks [ev]
  /\ List.length (emitted (dispatch db ev g)) <= 2 * clicks [ev].
Proof.
  destruct ev as [text | | items |].
  - repeat split; [intros [] | apply le_n | apply le_n].
  - simpl dispatch. rewrite filter_rows_silent.
    repeat split; [intros [] | apply le_n | apply le_n].
  - rewrite select_silent. repeat split; [intros [] | apply le_n | apply le_n].
  - rewrite click_log. unfold show_details_paths.
    destruct (details_button g);
      [|repeat split; [intros [] | apply le_0_n | apply le_0_n]].
    destruct (selection g) as [|first rest];
      [repeat split; [intros [] | apply le_0_n | apply le_0_n]|].
    destruct (PyStr.int_of_str first) as [n|];
      [|repeat split; [intros [] | apply le_0_n | apply le_0_n]].
    destruct (get_mal_info db n) as [exc | [|record more]].
    + repeat split; [|apply le_n | apply le_n].
      intros [H | [H | []]]; discriminate.
    + repeat split; [|apply le_n | apply le_n].
      intros [H | [H | []]]; discriminate.
    + destruct (Nat.eqb (List.length record) 9).
      * repeat split; [|apply le_n | apply le_n].
        intros [H | [H | []]]; discriminate.
      * repeat split; [|apply le_n | apply le_S, le_n].
        intros [H | []]; discriminate.
Qed.

(** X11: handling events never asks the database for the rows again, and
    only pressing the button reaches a collaborator at all: over any
    sequence of events, from any state, [get_partial_details] is not
    called, [get_mal_info] is called at most once for each press of the
    button, and at most two calls (a lookup and a message box) are made for
    each press. *)
Theorem events_never_reload (evs : list event) (g : gui) :
  ~ In QueryPartialDetails (event_log db evs g)
  /\ List.length (mal_info_queries (event_log db evs g)) <= clicks evs
  /\ List.length (event_log db evs g) <= 2 * clicks evs.
Proof.
  revert g. induction evs as [|ev evs IH]; intros g.
  - repeat split; [intros [] | apply le_n | apply le_n].
  - destruct (IH (final (dispatch db ev g))) as [IH1 [IH2 IH3]].
    destruct (dispatch_log ev g) as [H1 [H2 H3]].
    simpl event_log.
    rewrite mal_info_queries_app, !length_app, in_app_iff.
    assert (Hc : clicks (ev :: evs) = clicks [ev] + clicks evs)
      by (destruct ev; reflexivity).
    rewrite Hc. repeat split.
    + intros [H | H]; [now apply H1 | now apply IH1].
    + now apply Nat.add_le_mono.
    + rewrite Nat.mul_add_distr_l. now apply Nat.add_le_mono.
Qed.

End Collaborators.

Section DetailErrors.

Variable db : DBHandler.

(** X12: an item id that does not read as an integer stops
    [_show_selected_details] at once.  In a running program, when the first
    selected item belongs to a row whose first field has a string form that
    [int] rejects (as [None] has), the method raises [ValueError], its text
    naming the first 200 characters of the [repr] of that string, before
    any lookup and any message box, and leaves the window as it is. *)
Theorem show_details_rejects_non_integer_id (g : gui) (it : item)
    (rest : list string) (v : value) (flds : list value) :
  reachable db g ->
  In it (tree g) ->
  values it = v :: flds ->
  selection g = iid it :: rest ->
  PyStr.int_of_str (py_str v) = None ->
  _show_selected_details db g
  = (inl (ValueError ("invalid literal for int() with base 10: "
                      ++ substring 0 200 (PyStr.repr (py_str v)))),
     g, []).
Proof.
  intros Hreach Hin Hval Hsel Hint.
  apply reachable_consistent in Hreach. destruct Hreach as [_ [Hi _]].
  rewrite Forall_forall in Hi. specialize (Hi it Hin).
  rewrite Hval in Hi. unfold row_iid in Hi. simpl hd in Hi.
  rewrite show_details_run. unfold show_details_paths.
  now rewrite Hsel, Hi, Hint.
Qed.

(** X13: a detail that has not nine fields stops
    [_show_selected_details] after the lookup: it raises [ValueError]
    (with the number of fields in its text when they are too few), shows no
    message box and leaves the window as it is. *)
Theorem show_details_rejects_short_tuple (g : gui) (first : string)
    (rest : list string) (n : Z) (record : Tuple) (more : list Tuple) :
  selection g = first :: rest ->
  PyStr.int_of_str first = Some n ->
  get_mal_info db n = inr (record :: more) ->
  List.length record <> 9 ->
  _show_selected_details db g
  = (inl (ValueError
            (if Nat.ltb (List.length record) 9
             then ("not enough values to unpack (expected 9, got "
                   ++ PyStr.str_int (Z.of_nat (List.length record)) ++ ")")%string
             else "too many values to unpack (expected 9)")),
     g, [QueryMalInfo n]).
Proof.
  intros Hsel Hint Hdb Hlen.
  rewrite show_details_run. unfold show_details_paths.
  rewrite Hsel, Hint, Hdb.
  apply Nat.eqb_neq in Hlen. rewrite Hlen. unfold unpack_error.
  now destruct (Nat.ltb (List.length record) 9).
Qed.

End DetailErrors.

Lemma show_details_rejects_non_integer_id_witness :
  PyStr.int_of_str (py_str VNone) = None
  /\ outcome (_show_selected_details null_id_db
                (mainloop null_id_db [Select ["None"]]
                   (final (__init__ null_id_db))))
     = inl (ValueError "invalid literal for int() with base 10: 'None'")
  /\ emitted (_show_selected_details null_id_db
                (mainloop null_id_db [Select ["None"]]
                   (final (__init__ null_id_db))))
     = [].
Proof.
  split; [reflexivity|].
  assert (Hreach : reachable null_id_db
                     (mainloop null_id_db [Select ["None"]]
                        (final (__init__ null_id_db)))).
  { exists (final (__init__ null_id_db)), [Select ["None"]]. repeat split. }
  rewrite (show_details_rejects_non_integer_id null_id_db
             (mainloop null_id_db [Select ["None"]]
                (final (__init__ null_id_db)))
             (mkItem "None"
                [VNone; VStr "Worm"; VStr "C"; VStr "x86"; VStr "Win"; VStr "Z"]
                true)
             [] VNone [VStr "Worm"; VStr "C"; VStr "x86"; VStr "Win"; VStr "Z"]
             Hreach (or_introl eq_refl) eq_refl eq_refl eq_refl).
  split; reflexivity.
Defined.

Lemma show_details_rejects_short_tuple_witness :
  selection (mainloop short_detail_db [Select ["2"]] scenario_gui) = ["2"]
  /\ _show_selected_details short_detail_db
       (mainloop short_detail_db [Select ["2"]] scenario_gui)
     = (inl (ValueError "not enough values to unpack (expected 9, got 2)"),
        mainloop short_detail_db [Select ["2"]] scenario_gui,
        [QueryMalInfo 2]).
Proof.
  split; [reflexivity|].
  refine (show_details_rejects_short_tuple short_detail_db
            (mainloop short_detail_db [Select ["2"]] scenario_gui) "2" [] 2%Z
            [VStr "Worm"; VStr "B"] [] eq_refl eq_refl eq_refl _).
  discriminate.
Defined.

Section NotAvailable.

Lemma append_cancel_l (a x y : string) :
  (a ++ x)%string = (a ++ y)%string -> x = y.
Proof.
  induction a as [|c a IH]; simpl; [now intros|].
  intros H. inversion H. now apply IH.
Qed.

Lemma str_int_is_not_a_word (n : Z) : PyStr.str_int n <> "N/A".
Proof.
  intros H. pose proof (int_of_str_str_int n) as R. rewrite H in R. discriminate.
Qed.

(** X14: a line of the detail dialog reads "N/A" exactly when its field
    is [None], the number 0, the empty string or the string "N/A" itself:
    the dialog does not tell these values apart, and every other value
    is shown by its string form. *)
Theorem info_line_not_available (label : string) (v : value) :
  (info_line label v = (label ++ ": N/A")%string <->
   v = VNone \/ v = VInt 0 \/ v = VStr "" \/ v = VStr "N/A")
  /\ (truthy v = true -> info_line label v = (label ++ ": " ++ py_str v)%string).
Proof.
  unfold info_line. rewrite shown_or. split.
  - split.
    + intros H. apply append_cancel_l in H.
      apply (append_cancel_l ": ") in H.
      destruct v as [|n|s]; [now left | |].
      * destruct n as [|p|p]; [right; now left | |];
          simpl in H; now apply str_int_is_not_a_word in H.
      * destruct s as [|c s]; [right; right; now left|].
        simpl in H. right; right; right. now rewrite H.
    + intros [-> | [-> | [-> | ->]]]; reflexivity.
  - destruct v as [|n|s]; simpl; [discriminate | |].
    + destruct n; [discriminate | reflexivity | reflexivity].
    + destruct s; [discriminate | reflexivity].
Qed.

End NotAvailable.

Lemma info_line_not_available_witness :
  truthy (VStr "1.0") = true /\ info_line "Version" (VStr "1.0") = "Version: 1.0".
Proof.
  split; [reflexivity|].
  exact (proj2 (info_line_not_available "Version" (VStr "1.0")) eq_refl).
Defined.

Section Lifetime.

Variable d : Database.

(** The loop ends with the root destroyed exactly when a request to close
    the window arrives and the connection closes. *)
Lemma window_loop_closes (db : DBHandler) (wevs : list window_event) :
  forall g,
    (fst (fst (window_loop d db wevs g)) = true <->
     close_connection d = inr tt /\ In WmDeleteWindow wevs)
    /\ snd (window_loop d db wevs g)
       = (if fst (fst (window_loop d db wevs g))
          then [ConnectionClosed; RootDestroyed] else []).
Proof.
  induction wevs as [|wev wevs IH]; intros g.
  - simpl. split; [|reflexivity]. split; [discriminate | intros [_ []]].
  - destruct wev as [ev|]; simpl window_loop.
    + destruct (IH (final (dispatch db ev g))) as [[H1 H2] H3].
      split; [|exact H3]. split.
      * intros H. apply H1 in H. destruct H as [Hc Hin]. split; [exact Hc | now right].
      * intros [Hc [Hin | Hin]]; [discriminate | now apply H2].
    + unfold on_close. destruct (close_connection d) as [e | []] eqn:Hc.
      * destruct (IH g) as [[H1 H2] H3].
        destruct (window_loop d db wevs g) as [[closed g'] l].
        simpl in *. split; [|exact H3]. split.
        -- intros H. apply H1 in H. destruct H as [Hd _]. discriminate.
        -- intros [Hd _]. discriminate.
      * simpl. split; [|reflexivity].
        split; [intros _; split; [reflexivity | now left] | reflexivity].
Qed.

(** X15: [run] ends with the window closed exactly when the database
    opens, the constructor returns, a request to close the window arrives
    and [close_connection] succeeds; the connection is then closed once,
    before the root window is destroyed, and nothing else happens to the
    two. *)
Theorem run_closes_window_iff (wevs : list window_event) :
  (fst (run d wevs) = inr true <->
   (exists db, connect d = inr db /\ outcome (__init__ db) = inr tt)
   /\ close_connection d = inr tt
   /\ In WmDeleteWindow wevs)
  /\ (fst (run d wevs) = inr true ->
      snd (run d wevs) = [Connected; ConnectionClosed; RootDestroyed]).
Proof.
  unfold run. destruct (connect d) as [e | db] eqn:Hconn.
  - simpl. split; [split|]; try discriminate.
    intros [[db [Hdb _]] _]. discriminate.
  - destruct (__init__ db) as [[[e | []] g0] l0] eqn:Hinit.
    + simpl. split; [split|]; try discriminate.
      intros [[db' [Hdb Hok]] _]. inversion Hdb; subst db'.
      rewrite Hinit in Hok. discriminate.
    + destruct (window_loop_closes db wevs g0) as [[H1 H2] H3].
      destruct (window_loop d db wevs g0) as [[closed g'] l].
      simpl in *. split; [split|].
      * intros H. inversion H; subst closed.
        destruct (H1 eq_refl) as [Hc Hin].
        split; [|split; assumption].
        exists db. split; [reflexivity|]. now rewrite Hinit.
      * intros [_ [Hc Hin]]. now rewrite (H2 (conj Hc Hin)).
      * intros H. inversion H; subst closed. now rewrite H3.
Qed.

(** X16: the connection is closed, and the root window destroyed, only
    when [run] ends with the window closed: when the constructor raises,
    or [close_connection] raises on every request to close the window, the
    connection that the constructor opened is never closed and the window
    is never destroyed. *)
Theorem run_closes_connection_only_with_window (wevs : list window_event) :
  (In ConnectionClosed (snd (run d wevs)) <-> fst (run d wevs) = inr true)
  /\ (In RootDestroyed (snd (run d wevs)) <-> fst (run d wevs) = inr true).
Proof.
  unfold run. destruct (connect d) as [e | db].
  - simpl. split; (split; [intros [] | discriminate]).
  - destruct (__init__ db) as [[[e | []] g0] l0].
    + simpl. split; (split; [intros [H | []]; discriminate | discriminate]).
    + destruct (window_loop_closes db wevs g0) as [_ H3].
      destruct (window_loop d db wevs g0) as [[closed g'] l].
      simpl in *. subst l. destruct closed; simpl.
      * split; (split; [reflexivity | intros _]);
          [right; now left | right; right; now left].
      * split; (split; [intros [H | []]; discriminate | discriminate]).
Qed.

End Lifetime.

Lemma run_closes_window_iff_witness :
  run scenario_database
      [Widget (Edit "linux"); Widget KeyRelease; WmDeleteWindow;
       Widget (Select ["2"])]
  = (inr true, [Connected; ConnectionClosed; RootDestroyed])
  /\ fst (run duplicate_database [WmDeleteWindow])
     = inl (TclError "Item 1 already exists").
Proof.
  split; [|reflexivity].
  pose proof (proj2 (run_closes_window_iff scenario_database
                [Widget (Edit "linux"); Widget KeyRelease; WmDeleteWindow;
                 Widget (Select ["2"])]) eq_refl) as H.
  apply injective_projections; [reflexivity | exact H].
Defined.

Lemma run_closes_connection_only_with_window_witness :
  run stuck_database [WmDeleteWindow; Widget KeyRelease; WmDeleteWindow]
  = (inr false, [Connected])
  /\ fst (run stuck_database [WmDeleteWindow; Widget KeyRelease; WmDeleteWindow])
     <> inr true.
Proof.
  split; [reflexivity|].
  intros H.
  apply (proj2 (proj1 (run_closes_connection_only_with_window stuck_database
           [WmDeleteWindow; Widget KeyRelease; WmDeleteWindow]))) in H.
  destruct H as [H | []]. discriminate.
Defined.

Section StringForms.

Lemma contains_itself (s : string) : PyStr.contains s s = true.
Proof. apply contains_iff. exists "", "". simpl. now rewrite append_empty_r. Qed.

(** X17: fields are matched by their string form.  With a cache that can
    be shown, a row of the cache is displayed whenever the trimmed,
    lower-cased filter text is the lower-cased string form of one of its
    fields: the digits of an integer field, and "none" for a field that is
    [None]. *)
Theorem filter_matches_string_forms (g : gui) (row : Tuple) (field : value) :
  renderable (malware_rows g) = true ->
  In row (malware_rows g) ->
  In field row ->
  PyStr.lower (PyStr.strip (search_var g)) = PyStr.lower (py_str field) ->
  In row (displayed (final (_filter_rows g)))
  /\ PyStr.lower (py_str VNone) = "none".
Proof.
  intros Hr Hrow Hfield Htext. split; [|reflexivity].
  rewrite filter_rows_run by exact Hr. unfold final. simpl fst. simpl snd.
  rewrite displayed_rendered, view_filter by exact Hr.
  apply filter_In. split; [exact Hrow|].
  unfold row_matches. apply existsb_exists. exists field.
  split; [exact Hfield|]. rewrite Htext. apply contains_itself.
Qed.

End StringForms.

Lemma filter_matches_string_forms_witness :
  renderable (malware_rows (with_text (final (__init__ null_id_db)) " NONE "))
  = true
  /\ In [VNone; VStr "Worm"; VStr "C"; VStr "x86"; VStr "Win"; VStr "Z"]
        (displayed (final (_filter_rows
                             (with_text (final (__init__ null_id_db)) " NONE ")))).
Proof.
  split; [reflexivity|].
  exact (proj1 (filter_matches_string_forms
                  (with_text (final (__init__ null_id_db)) " NONE ")
                  [VNone; VStr "Worm"; VStr "C"; VStr "x86"; VStr "Win"; VStr "Z"]
                  VNone eq_refl (or_introl eq_refl) (or_introl eq_refl) eq_refl)).
Defined.
